(** * youtubeChannelVideosFinder: a shallow embedding and its properties

    The development follows [src/youtubeChannelVideosFinder.py].  The first
    part models the pieces of the Python runtime the program leans on
    (parsed JSON values, exceptions, naive [datetime] / [timedelta]
    arithmetic, [int()] and [strptime]); the second part is the program
    itself, written in a state-and-exception monad whose state holds the
    outside world (HTTP server, clock) and the trace of observable events
    (requests, log records, printed lines); the third part states and
    proves the properties. *)

From Stdlib Require Import ZArith List String Ascii Bool Lia DecimalString.
Import ListNotations.

Local Open Scope Z_scope.
Local Open Scope list_scope.

(** String concatenation, kept apart from list append. *)
Local Infix "^^" := String.append (at level 60, right associativity).

(* ================================================================= *)
(** ** Python values and exceptions *)

(** The exception classes the program can meet.  All of them derive from
    [Exception], so every [except Exception] clause catches each of them. *)
Inductive exn : Type :=
| ValueError
| OverflowError
| TypeError
| KeyError
| IndexError
| AttributeError
| ConnectionError                (* [requests.get] could not complete *)
| JSONDecodeError                (* [.decode('utf-8')] or [json.loads] failed *)
| PyException (msg : string).    (* [raise Exception(msg)] *)

(** The two [while] loops of the program; a run that exhausts the fuel of
    one of them is reported as hanging in that loop.  The outcome of a
    computation is then a value, an exception, or a loop that goes on. *)
Inductive loop_id : Type := PaginationLoop | WindowLoop.

Inductive res (A : Type) : Type :=
| Ret (a : A)
| Raise (e : exn)
| Hang (l : loop_id).
Arguments Ret {A} a.
Arguments Raise {A} e.
Arguments Hang {A} l.

(** The outcome of an operation that has no effect besides raising. *)
Inductive pure (A : Type) : Type :=
| Ok (a : A)
| Err (e : exn).
Arguments Ok {A} a.
Arguments Err {A} e.

Definition pure_bind {A B} (r : pure A) (k : A -> pure B) : pure B :=
  match r with
  | Ok a => k a
  | Err e => Err e
  end.

(** A Python [float]: not-a-number, an infinity, or a finite rational. *)
Inductive pyfloat : Type :=
| FNan
| FInf (negative : bool)
| FFinite (num : Z) (den : positive).

(** Values: what [json.loads] produces, plus the two [datetime] classes
    that appear as logging arguments. *)
#[local] Set Warnings "-register-all".
Inductive pyval : Type :=
| VNone
| VBool (b : bool)
| VInt (z : Z)
| VFloat (f : pyfloat)
| VStr (s : string)
| VList (items : list pyval)
| VDict (kvs : list (string * pyval))
| VDatetime (d : Z)
| VTimedelta (d : Z).

Fixpoint assoc (k : string) (kvs : list (string * pyval)) : option pyval :=
  match kvs with
  | [] => None
  | (k', v) :: rest => if String.eqb k k' then Some v else assoc k rest
  end.

(** [v[k]] for a string key. *)
Definition getitem (v : pyval) (k : string) : pure pyval :=
  match v with
  | VDict kvs => match assoc k kvs with Some x => Ok x | None => Err KeyError end
  | _ => Err TypeError
  end.

Definition chars (s : string) : list pyval :=
  map (fun c => VStr (String c EmptyString)) (list_ascii_of_string s).

(** [v[0]]. *)
Definition getitem0 (v : pyval) : pure pyval :=
  match v with
  | VList (x :: _) => Ok x
  | VList [] => Err IndexError
  | VStr s => match chars s with x :: _ => Ok x | [] => Err IndexError end
  | VDict _ => Err KeyError       (* the keys of a parsed object are strings *)
  | _ => Err TypeError
  end.

(** [v.get(k)]: only a [dict] has the method. *)
Definition dict_get (v : pyval) (k : string) : pure pyval :=
  match v with
  | VDict kvs => match assoc k kvs with Some x => Ok x | None => Ok VNone end
  | _ => Err AttributeError
  end.

(** [v > n] for an integer literal [n]. *)
Definition py_gt (v : pyval) (n : Z) : pure bool :=
  match v with
  | VInt z => Ok (n <? z)
  | VBool b => Ok (n <? (if b then 1 else 0))
  | VFloat FNan => Ok false
  | VFloat (FInf negative) => Ok (negb negative)
  | VFloat (FFinite num den) => Ok (n * Z.pos den <? num)
  | _ => Err TypeError
  end.

(** [v == n] for an integer literal [n]; equality never raises. *)
Definition py_eq_int (v : pyval) (n : Z) : bool :=
  match v with
  | VInt z => z =? n
  | VBool b => (if b then 1 else 0) =? n
  | VFloat (FFinite num den) => num =? n * Z.pos den
  | _ => false
  end.

(** [for x in v]: the elements the loop visits. *)
Definition py_iter (v : pyval) : pure (list pyval) :=
  match v with
  | VList l => Ok l
  | VStr s => Ok (chars s)
  | VDict kvs => Ok (map (fun kv => VStr (fst kv)) kvs)
  | _ => Err TypeError
  end.

Definition py_len (l : list pyval) : pyval := VInt (Z.of_nat (List.length l)).

(* ================================================================= *)
(** ** [datetime] and [timedelta] *)

Module Datetime.

(** A naive [datetime] is its number of microseconds since
    0001-01-01T00:00:00 ([datetime.min]); a [timedelta] is a number of
    microseconds. *)
Definition datetime := Z.
Definition timedelta := Z.

Definition us_per_day : Z := 86400000000.
Definition MAXORDINAL : Z := 3652059.          (* date(9999, 12, 31).toordinal() *)
Definition datetime_min : datetime := 0.
Definition datetime_max : datetime := MAXORDINAL * us_per_day - 1.
Definition max_delta_days : Z := 999999999.

Definition valid_datetime (d : datetime) : Prop :=
  datetime_min <= d <= datetime_max.

Definition is_leap (y : Z) : bool :=
  (y mod 4 =? 0) && (negb (y mod 100 =? 0) || (y mod 400 =? 0)).

Definition days_before_year (y : Z) : Z :=
  let y1 := y - 1 in y1 * 365 + y1 / 4 - y1 / 100 + y1 / 400.

Definition days_in_month (y m : Z) : Z :=
  if m =? 2 then (if is_leap y then 29 else 28)
  else if (m =? 4) || (m =? 6) || (m =? 9) || (m =? 11) then 30
  else 31.

Fixpoint days_before_month_aux (y : Z) (k : nat) : Z :=
  match k with
  | O => 0
  | S k' => days_before_month_aux y k' + days_in_month y (Z.of_nat k)
  end.

Definition days_before_month (y m : Z) : Z :=
  days_before_month_aux y (Z.to_nat (m - 1)).

Definition ymd2ord (y m d : Z) : Z :=
  days_before_year y + days_before_month y m + d.

(** [datetime(y, m, d)]: midnight of a calendar day. *)
Definition datetime_ymd (y m d : Z) : datetime :=
  (ymd2ord y m d - 1) * us_per_day.

(** [datetime.timedelta(days=n)]. *)
Definition timedelta_days (n : Z) : pure timedelta :=
  if (- max_delta_days <=? n) && (n <=? max_delta_days)
  then Ok (n * us_per_day)
  else Err OverflowError.

Definition timedelta_weeks (n : Z) : timedelta := n * 7 * us_per_day.

(** [d - td]: the difference must be a representable [datetime]. *)
Definition sub (d : datetime) (td : timedelta) : pure datetime :=
  let r := d - td in
  if (datetime_min <=? r) && (r <=? datetime_max) then Ok r
  else Err OverflowError.

End Datetime.
Import Datetime.

(* ================================================================= *)
(** ** Parsing: [int(s)] and [strptime(s, '%Y-%m-%d')] on ASCII text

    A [string] holds the UTF-8 bytes of a Python [str].  The two parsers
    are written out here for text made of ASCII characters only.  On any
    other text Python goes by the Unicode database (the decimal digits and
    the white space of every script), which is not modelled: there the
    answer is the environment's, see [py_int] and [strptime] below. *)

Definition is_ascii (s : string) : bool :=
  forallb (fun c => Z.of_N (N_of_ascii c) <? 128) (list_ascii_of_string s).

Definition digit_of (c : ascii) : option Z :=
  let n := Z.of_N (N_of_ascii c) in
  if (48 <=? n) && (n <=? 57) then Some (n - 48) else None.

(** White space for [int] on ASCII text: tab, line feed, vertical tab,
    form feed, carriage return and space. *)
Definition is_space (c : ascii) : bool :=
  let n := Z.of_N (N_of_ascii c) in
  ((9 <=? n) && (n <=? 13)) || (n =? 32).

Fixpoint lstrip (cs : list ascii) : list ascii :=
  match cs with
  | c :: rest => if is_space c then lstrip rest else cs
  | [] => []
  end.

Definition strip (cs : list ascii) : list ascii :=
  rev (lstrip (rev (lstrip cs))).

(** Decimal digits with single underscores allowed between digits.
    [prev] tells whether the previous character was a digit. *)
Fixpoint digits_value (cs : list ascii) (acc : Z) (prev : bool) : option Z :=
  match cs with
  | [] => if prev then Some acc else None
  | c :: rest =>
      match digit_of c with
      | Some d => digits_value rest (10 * acc + d) true
      | None =>
          if (Ascii.eqb c "_"%char) && prev then digits_value rest acc false
          else None
      end
  end.

Definition is_digit (c : ascii) : bool :=
  match digit_of c with Some _ => true | None => false end.

(** The guard on the length of a decimal literal.  [max_str_digits] is
    the interpreter's [sys.get_int_max_str_digits()]: 4300 unless it was
    configured otherwise, 0 for no limit (and for the interpreters that
    have no such guard).  Underscores do not count, leading zeros do, and
    literals of up to 640 digits are never checked. *)
Definition too_many_digits (max_str_digits : Z) (cs : list ascii) : bool :=
  let digits := Z.of_nat (List.length (filter is_digit cs)) in
  (640 <? digits) && (0 <? max_str_digits) && (max_str_digits <? digits).

(** [int(s)] for a [str] argument of ASCII characters: white space around
    an optional sign and decimal digits; a literal that is well formed but
    longer than the interpreter allows is a [ValueError] too. *)
Definition int_ascii (max_str_digits : Z) (s : string) : pure Z :=
  let cs := strip (list_ascii_of_string s) in
  let body :=
    match cs with
    | "-"%char :: rest => option_map Z.opp (digits_value rest 0 false)
    | "+"%char :: rest => digits_value rest 0 false
    | cs => digits_value cs 0 false
    end in
  match body with
  | Some z => if too_many_digits max_str_digits cs then Err ValueError else Ok z
  | None => Err ValueError
  end.

(** The directive [%Y]: exactly four digits. *)
Definition parse_Y (cs : list ascii) : option (Z * list ascii) :=
  match cs with
  | a :: b :: c :: d :: rest =>
      match digit_of a, digit_of b, digit_of c, digit_of d with
      | Some x, Some y, Some z, Some w => Some (1000 * x + 100 * y + 10 * z + w, rest)
      | _, _, _, _ => None
      end
  | _ => None
  end.

(** The directive [%m]: the alternatives [1[0-2]], [0[1-9]], [[1-9]] in order. *)
Definition parse_m (cs : list ascii) : option (Z * list ascii) :=
  let two :=
    match cs with
    | a :: b :: rest =>
        match digit_of a, digit_of b with
        | Some 1, Some y => if y <=? 2 then Some (10 + y, rest) else None
        | Some 0, Some y => if 1 <=? y then Some (y, rest) else None
        | _, _ => None
        end
    | _ => None
    end in
  match two, cs with
  | Some r, _ => Some r
  | None, a :: rest =>
      match digit_of a with
      | Some x => if 1 <=? x then Some (x, rest) else None
      | None => None
      end
  | None, [] => None
  end.

(** The directive [%d]: [3[01]], [[12]\d], [0[1-9]], [[1-9]], [ [1-9]] in order. *)
Definition parse_d (cs : list ascii) : option (Z * list ascii) :=
  let two :=
    match cs with
    | a :: b :: rest =>
        match digit_of a, digit_of b with
        | Some 3, Some y => if y <=? 1 then Some (30 + y, rest) else None
        | Some 1, Some y => Some (10 + y, rest)
        | Some 2, Some y => Some (20 + y, rest)
        | Some 0, Some y => if 1 <=? y then Some (y, rest) else None
        | _, _ => None
        end
    | _ => None
    end in
  match two, cs with
  | Some r, _ => Some r
  | None, a :: rest =>
      match digit_of a with
      | Some x => if 1 <=? x then Some (x, rest) else None
      | None =>
          if Ascii.eqb a " "%char then
            match rest with
            | b :: rest' =>
                match digit_of b with
                | Some x => if 1 <=? x then Some (x, rest') else None
                | None => None
                end
            | [] => None
            end
          else None
      end
  | None, [] => None
  end.

Definition expect (c : ascii) (cs : list ascii) : option (list ascii) :=
  match cs with
  | a :: rest => if Ascii.eqb a c then Some rest else None
  | [] => None
  end.

(** [datetime.datetime.strptime(s, '%Y-%m-%d')] for a [str] argument of
    ASCII characters: the whole string must match, and the fields must
    name a calendar day. *)
Definition strptime_ascii (s : string) : pure datetime :=
  let parsed :=
    match parse_Y (list_ascii_of_string s) with
    | Some (y, r1) =>
        match expect "-"%char r1 with
        | Some r2 =>
            match parse_m r2 with
            | Some (m, r3) =>
                match expect "-"%char r3 with
                | Some r4 =>
                    match parse_d r4 with
                    | Some (d, []) => Some (y, m, d)
                    | _ => None
                    end
                | None => None
                end
            | None => None
            end
        | None => None
        end
    | None => None
    end in
  match parsed with
  | Some (y, m, d) =>
      if (1 <=? y) && (d <=? days_in_month y m) then Ok (datetime_ymd y m d)
      else Err ValueError
  | None => Err ValueError
  end.

(* ================================================================= *)
(** ** The outside world and the trace of a run *)

(** What one [requests.get(url)] followed by
    [json.loads(response.content.decode('utf-8'))] can come to: the request
    fails, the body is not JSON text, or a value is parsed. *)
Inductive reply : Type :=
| ConnectionFailed
| Malformed
| Body (json : pyval).

(** The environment of a run.  [http_get] answers a request and moves the
    server on; [clock] is [datetime.datetime.now()].  [py_str] and
    [json_dumps] are the builtins [str] and [json.dumps(_, indent=4)]; no
    property below depends on the text they produce.  The last three
    fields belong to the interpreter: the limit on the digits of a decimal
    literal, and what [int(s)] and [strptime(s, '%Y-%m-%d')] make of a text
    that has a character outside ASCII, [None] standing for [ValueError].

    Modelled from the spec: [rfc3339] is the repository's own module
    [rfc3339.py], which is not part of the sources at hand; the spec says
    of it only that the timestamps sent to the search API are RFC 3339,
    normalised to UTC, so it is kept as an unspecified formatting function. *)
Record platform : Type := mkPlatform {
  World : Type;
  http_get : string -> World -> reply * World;
  clock : World -> datetime * World;
  rfc3339 : datetime -> string;
  py_str : pyval -> string;
  json_dumps : pyval -> string;
  int_max_str_digits : Z;
  int_unicode : string -> option Z;
  strptime_unicode : string -> option datetime
}.

(** [int(s)] for a [str] argument. *)
Definition py_int (P : platform) (s : string) : pure Z :=
  if is_ascii s then int_ascii (int_max_str_digits P) s
  else match int_unicode P s with Some z => Ok z | None => Err ValueError end.

(** [datetime.datetime.strptime(s, '%Y-%m-%d')]. *)
Definition strptime (P : platform) (s : string) : pure datetime :=
  if is_ascii s then strptime_ascii s
  else match strptime_unicode P s with Some d => Ok d | None => Err ValueError end.

Inductive level : Type := DEBUG | INFO | WARNING | ERROR | CRITICAL.

(** Observable events, in the order they happen.  A [LogRecord] stands
    for a call of the logger, whatever level [read_args] configured: the
    level decides what is printed, not what the program does. *)
Inductive event : Type :=
| HttpGet (url : string)
| LogRecord (lvl : level) (msg : string) (args : list pyval) (exc_info : option exn)
| Stdout (line : pyval).

Record state (P : platform) : Type := mkState {
  world : World P;
  trace : list event
}.
Arguments mkState {P} world trace.
Arguments world {P} s.
Arguments trace {P} s.

(** The requests of a trace, oldest first. *)
Fixpoint requests_of (t : list event) : list string :=
  match t with
  | [] => []
  | HttpGet url :: rest => url :: requests_of rest
  | _ :: rest => requests_of rest
  end.

(** The log records of a trace that carry an exception. *)
Fixpoint anomalies_of (t : list event) : list (level * exn) :=
  match t with
  | [] => []
  | LogRecord lvl _ _ (Some e) :: rest => (lvl, e) :: anomalies_of rest
  | _ :: rest => anomalies_of rest
  end.

Definition window_msg : string :=
  "Getting videos published before %s and after %s".

(** The windows of a trace: each call of
    [_get_channel_videos_published_in_interval] opens with one log record
    carrying its two bounds, (publishedBefore, publishedAfter). *)
Fixpoint windows_of (t : list event) : list (string * string) :=
  match t with
  | [] => []
  | LogRecord INFO msg [VStr before; VStr after] None :: rest =>
      if String.eqb msg window_msg then (before, after) :: windows_of rest
      else windows_of rest
  | _ :: rest => windows_of rest
  end.

(* ================================================================= *)
(** ** Module constants *)

Definition youtubeApiUrl : string := "https://www.googleapis.com/youtube/v3/".

(** The templates, as functions of what [str.format] fills in. *)
Definition youtubeChannelsApiUrl (key : string) : string :=
  youtubeApiUrl ^^ "channels?key=" ^^ key ^^ "&".

Definition youtubeSearchApiUrl (key : string) : string :=
  youtubeApiUrl ^^ "search?key=" ^^ key ^^ "&".

Definition requestParametersChannelId (name : string) : string :=
  "forUsername=" ^^ name ^^ "&part=id".

Definition defaultInterval : timedelta := timedelta_weeks 52.

Definition defaultTimeToGoBackTo : datetime := datetime_ymd 2005 2 14.

Definition no_channel_msg : string :=
  "The channel id could not be retrieved. Make sure that the channel name is correct".

Definition bad_range_msg : string :=
  "The date to start from cannot be before the date to go back to!".

Definition no_id_msg : string := "Impossible to continue without the channel id".

(** The arguments [get_channel_videos] accepts for its dates and for its
    interval: [None], a [str], or an object of the target class (and an
    [int] for the interval). *)
Inductive date_arg : Type :=
| DateNone
| DateStr (s : string)
| DateObj (d : datetime).

Inductive interval_arg : Type :=
| IvNone
| IvStr (s : string)
| IvInt (n : Z)
| IvDelta (td : timedelta).

(** What [read_args] hands to [main]. *)
Record args : Type := mkArgs {
  apiKey : string;
  channel : string;
  earliest : option string;
  latest : option string;
  interval : option string
}.

(** How the process ends: an exit status, or never. *)
Inductive ending : Type :=
| Exit (code : Z)
| Never (l : loop_id).

(* ================================================================= *)
(** ** The program *)

Section Program.

Context {P : platform}.

(** Computations: they read and extend the state, and end with a value,
    an exception or a loop that has not finished. *)
Definition M (A : Type) : Type := state P -> res A * state P.

Definition ret {A} (a : A) : M A := fun s => (Ret a, s).
Definition raise {A} (e : exn) : M A := fun s => (Raise e, s).
Definition hang {A} (l : loop_id) : M A := fun s => (Hang l, s).

Definition lift {A} (r : pure A) : M A :=
  fun s => match r with Ok a => (Ret a, s) | Err e => (Raise e, s) end.

Definition bind {A B} (m : M A) (k : A -> M B) : M B :=
  fun s =>
    match m s with
    | (Ret a, s') => k a s'
    | (Raise e, s') => (Raise e, s')
    | (Hang l, s') => (Hang l, s')
    end.

(** [try: m except Exception: h]. *)
Definition try_except {A} (m : M A) (h : exn -> M A) : M A :=
  fun s =>
    match m s with
    | (Raise e, s') => h e s'
    | other => other
    end.

Definition emit (e : event) : M unit :=
  fun s => (Ret tt, mkState (world s) (trace s ++ [e])).

Definition log (lvl : level) (msg : string) (args : list pyval) : M unit :=
  emit (LogRecord lvl msg args None).

(** A log call with [exc_info=True], made while handling [e]. *)
Definition log_exc (lvl : level) (msg : string) (e : exn) : M unit :=
  emit (LogRecord lvl msg [] (Some e)).

Notation "x <- m ;; k" := (bind m (fun x => k))
  (at level 61, m at next level, right associativity).
Notation "m ;; k" := (bind m (fun _ => k))
  (at level 61, right associativity).

(** [requests.get(url)]. *)
Definition requests_get (url : string) : M reply :=
  fun s =>
    let (r, w) := http_get P url (world s) in
    let s' := mkState w (trace s ++ [HttpGet url]) in
    match r with
    | ConnectionFailed => (Raise ConnectionError, s')
    | _ => (Ret r, s')
    end.

(** [json.loads(response.content.decode('utf-8'))]. *)
Definition json_loads (r : reply) : M pyval :=
  match r with
  | Body j => ret j
  | _ => raise JSONDecodeError
  end.

Definition now : M datetime :=
  fun s => let (d, w) := clock P (world s) in (Ret d, mkState w (trace s)).

(** What [str.format] puts in place of a field. *)
Definition format_arg (v : pyval) : string :=
  match v with
  | VStr s => s
  | _ => py_str P v
  end.

Definition requestChannelVideosInfo
    (channelId : pyval) (publishedBefore publishedAfter : string)
    (pageToken : pyval) : string :=
  "channelId=" ^^ format_arg channelId
  ^^ "&part=id&order=date&type=video&publishedBefore=" ^^ publishedBefore
  ^^ "&publishedAfter=" ^^ publishedAfter
  ^^ "&pageToken=" ^^ format_arg pageToken ^^ "&maxResults=50".

(* --------------------------------------------------------------- *)
(** *** [get_channel_id] *)

(** [responseAsJson['pageInfo'].get('totalResults') > n]. *)
Definition totalResults_gt (responseAsJson : pyval) (n : Z) : pure bool :=
  pure_bind (getitem responseAsJson "pageInfo") (fun pageInfo =>
  pure_bind (dict_get pageInfo "totalResults") (fun total =>
  py_gt total n)).

(** The local [channelId] starts as [-1] and is assigned once, at the
    first branch of the [try] body.  The body is therefore split at that
    assignment: an exception before it leaves [-1] to be returned, an
    exception after it leaves the assigned value. *)
Definition get_channel_id (apiKey channelName : string) : M pyval :=
  log INFO "Searching channel id for channel: %s" [VStr channelName] ;;
  let handler (channelId : pyval) (e : exn) : M pyval :=
    log_exc ERROR "An exception occurred while trying to retrieve the channel id" e ;;
    ret channelId in
  try_except
    (let url := youtubeChannelsApiUrl apiKey ^^ requestParametersChannelId channelName in
     log DEBUG "Request: %s" [VStr url] ;;
     log DEBUG "Sending request" [] ;;
     response <- requests_get url ;;
     log DEBUG "Parsing the response" [] ;;
     responseAsJson <- json_loads response ;;
     log DEBUG "Response: %s" [VStr (json_dumps P responseAsJson)] ;;
     log DEBUG "Extracting the channel id" [] ;;
     found <- lift (totalResults_gt responseAsJson 0) ;;
     channelId <-
       (if (found : bool) then
          items <- lift (getitem responseAsJson "items") ;;
          returnedInfo <- lift (getitem0 items) ;;
          channelId <- lift (dict_get returnedInfo "id") ;;
          log INFO "Channel id found: %s" [VStr (py_str P channelId)] ;;
          ret channelId
        else
          log DEBUG "Response received but it contains no item" [] ;;
          raise (PyException no_channel_msg)) ;;
     try_except
       (several <- lift (totalResults_gt responseAsJson 1) ;;
        (if (several : bool) then
           log DEBUG "Multiple channels were received in the response. If this happens, something can probably be improved around here" []
         else ret tt) ;;
        ret channelId)
       (handler channelId))
    (handler (VInt (-1))).

(* --------------------------------------------------------------- *)
(** *** [_get_channel_videos_published_in_interval] *)

(** The [for video in returnedVideos] loop: it appends to [videoList]
    until an element raises; what was appended stays appended. *)
Fixpoint append_ids (returnedVideos videoList : list pyval)
  : list pyval * option exn :=
  match returnedVideos with
  | [] => (videoList, None)
  | video :: rest =>
      match pure_bind (dict_get video "id") (fun i => dict_get i "videoId") with
      | Ok v => append_ids rest (videoList ++ [v])
      | Err e => (videoList, Some e)
      end
  end.

(** One turn of the [while not foundAll] loop.  It returns the locals
    the next turn reads: [videoList], and [Some nextPageToken] when the
    loop goes on or [None] when [foundAll] was set. *)
Definition page_turn (apiKey : string) (channelId : pyval)
    (publishedBefore publishedAfter : string)
    (nextPageToken : pyval) (videoList : list pyval)
  : M (list pyval * option pyval) :=
  let stop (videoList : list pyval) (e : exn) : M (list pyval * option pyval) :=
    log_exc ERROR "An exception occurred while trying to retrieve a subset of the channel videos. Stopping search." e ;;
    ret (videoList, None) in
  try_except
    (let url := youtubeSearchApiUrl apiKey
                ^^ requestChannelVideosInfo channelId publishedBefore publishedAfter nextPageToken in
     log DEBUG "Request: %s" [VStr url] ;;
     log DEBUG "Sending request" [] ;;
     response <- requests_get url ;;
     log DEBUG "Parsing the response" [] ;;
     responseAsJson <- json_loads response ;;
     returnedVideos <- lift (getitem responseAsJson "items") ;;
     log DEBUG "Response: %s" [VStr (json_dumps P returnedVideos)] ;;
     videos <- lift (py_iter returnedVideos) ;;
     match append_ids videos videoList with
     | (videoList', Some e) => stop videoList' e
     | (videoList', None) =>
         match getitem responseAsJson "nextPageToken" with
         | Ok token =>
             log INFO "More videos to load, continuing" [] ;;
             ret (videoList', Some token)
         | Err _ =>
             log INFO "No more videos to load" [] ;;
             ret (videoList', None)
         end
     end)
    (stop videoList).

Fixpoint page_loop (fuel : nat) (apiKey : string) (channelId : pyval)
    (publishedBefore publishedAfter : string)
    (nextPageToken : pyval) (videoList : list pyval) : M (list pyval) :=
  match fuel with
  | O => hang PaginationLoop
  | S fuel' =>
      turn <- page_turn apiKey channelId publishedBefore publishedAfter
                nextPageToken videoList ;;
      match turn with
      | (videoList', Some token) =>
          page_loop fuel' apiKey channelId publishedBefore publishedAfter
            token videoList'
      | (videoList', None) => ret videoList'
      end
  end.

Definition _get_channel_videos_published_in_interval (fuel : nat)
    (apiKey : string) (channelId : pyval)
    (publishedBefore publishedAfter : string) : M (list pyval) :=
  log INFO window_msg [VStr publishedBefore; VStr publishedAfter] ;;
  videoList <- page_loop fuel apiKey channelId publishedBefore publishedAfter
                 (VStr EmptyString) [] ;;
  log INFO "Found %d video(s) in this time interval" [py_len videoList] ;;
  ret videoList.

(* --------------------------------------------------------------- *)
(** *** [get_channel_videos] *)

(** Lines 164-172: strings are converted first, then [None] is replaced
    by the defaults.  The result is (earliest, latest, timeInterval). *)
Definition resolve_arguments (earliest latest : date_arg)
    (timeInterval : interval_arg) : M (datetime * datetime * timedelta) :=
  earliest <- match earliest with
              | DateStr s => d <- lift (strptime P s) ;; ret (Some d)
              | DateObj d => ret (Some d)
              | DateNone => ret None
              end ;;
  latest <- match latest with
            | DateStr s => d <- lift (strptime P s) ;; ret (Some d)
            | DateObj d => ret (Some d)
            | DateNone => ret None
            end ;;
  timeInterval <- match timeInterval with
                  | IvStr s =>
                      n <- lift (py_int P s) ;;
                      td <- lift (timedelta_days n) ;; ret (Some td)
                  | IvInt n => td <- lift (timedelta_days n) ;; ret (Some td)
                  | IvDelta td => ret (Some td)
                  | IvNone => ret None
                  end ;;
  latest <- match latest with
            | None => now
            | Some d => ret d
            end ;;
  let earliest := match earliest with
                  | None => defaultTimeToGoBackTo
                  | Some d => d
                  end in
  let timeInterval := match timeInterval with
                      | None => defaultInterval
                      | Some td => td
                      end in
  ret (earliest, latest, timeInterval).

(** The [while not done] loop, entered with the locals [latererer],
    [earliererer] and [videoList]. *)
Fixpoint window_loop (fuel pages : nat) (apiKey : string) (channelId : pyval)
    (earliest : datetime) (timeInterval : timedelta)
    (latererer earliererer : datetime) (videoList : list pyval)
  : M (list pyval) :=
  match fuel with
  | O => hang WindowLoop
  | S fuel' =>
      earliererer <-
        (if earliererer <? earliest then
           log DEBUG "The interval is now larger than the remaining time span to retrieve videos for. Using the date to go back to as next boundary" [] ;;
           ret earliest
         else ret earliererer) ;;
      done <-
        (if earliererer =? earliest then
           log DEBUG "Last round-trip" [] ;; ret true
         else ret false) ;;
      log DEBUG "Converting timestamps to RFC3339 format" [] ;;
      let earliererer_rfc3339 := rfc3339 P earliererer in
      let latererer_rfc3339 := rfc3339 P latererer in
      videosPublishedInInterval <-
        _get_channel_videos_published_in_interval pages apiKey channelId
          latererer_rfc3339 earliererer_rfc3339 ;;
      log DEBUG "Adding videos found in the interval to the results list" [] ;;
      let videoList := videoList ++ videosPublishedInInterval in
      log DEBUG "Total video(s) found so far: %d" [py_len videoList] ;;
      if (done : bool) then ret videoList
      else
        let latererer := earliererer in
        nextDate <- lift (sub earliererer timeInterval) ;;
        log DEBUG "Calculating the next date to go back to based on the interval: %s - %s => %s"
          [VDatetime earliererer; VTimedelta timeInterval; VDatetime nextDate] ;;
        window_loop fuel' pages apiKey channelId earliest timeInterval
          latererer nextDate videoList
  end.

(** Lines 174-215, with the three arguments resolved. *)
Definition collect (fuel pages : nat) (apiKey : string) (channelId : pyval)
    (earliest latest : datetime) (timeInterval : timedelta) : M (list pyval) :=
  log INFO "Searching for videos published in channel between %s and %s"
    [VDatetime latest; VDatetime earliest] ;;
  (if latest <? earliest then raise (PyException bad_range_msg) else ret tt) ;;
  let latererer := latest in
  earliererer <- lift (sub latererer timeInterval) ;;
  videoList <- window_loop fuel pages apiKey channelId earliest timeInterval
                 latererer earliererer [] ;;
  log INFO "Found %d video(s) in total" [py_len videoList] ;;
  ret videoList.

(** [fuel] bounds the turns of the window loop, [pages] the turns of
    each window's pagination loop. *)
Definition get_channel_videos (fuel pages : nat) (apiKey : string)
    (channelId : pyval) (earliest latest : date_arg)
    (timeInterval : interval_arg) : M (list pyval) :=
  resolved <- resolve_arguments earliest latest timeInterval ;;
  let '(earliest, latest, timeInterval) := resolved in
  collect fuel pages apiKey channelId earliest latest timeInterval.

(* --------------------------------------------------------------- *)
(** *** [main] *)

Fixpoint print_all (videos : list pyval) : M unit :=
  match videos with
  | [] => ret tt
  | video :: rest => emit (Stdout video) ;; print_all rest
  end.

Definition date_of_option (o : option string) : date_arg :=
  match o with Some s => DateStr s | None => DateNone end.

Definition interval_of_option (o : option string) : interval_arg :=
  match o with Some s => IvStr s | None => IvNone end.

(** The body of the [try] of [main]: it returns the status of a
    [sys.exit] reached inside it ([SystemExit] is not an [Exception], so
    the handler lets it through), or [None] when it runs to its end. *)
Definition main_body (fuel pages : nat) (a : args) : M (option Z) :=
  channelId <- get_channel_id (apiKey a) (channel a) ;;
  (if py_eq_int channelId (-1) then raise (PyException no_id_msg) else ret tt) ;;
  channelVideos <- get_channel_videos fuel pages (apiKey a) channelId
                     (date_of_option (earliest a)) (date_of_option (latest a))
                     (interval_of_option (interval a)) ;;
  if (Z.of_nat (List.length channelVideos) <=? 0) then
    log INFO "No video found for that channel! Either there's none or a problem occurred. Enable verbose or debug logging for more details.." [] ;;
    ret (Some 0)
  else
    print_all channelVideos ;;
    log INFO "Done!" [] ;;
    ret None.

Definition main (fuel pages : nat) (a : args) (s : state P) : ending * state P :=
  match main_body fuel pages a s with
  | (Ret (Some code), s') => (Exit code, s')
  | (Ret None, s') => (Exit 0, s')
  | (Raise e, s') =>
      (Exit 2, snd (log_exc CRITICAL "We tried our best but still.." e s'))
  | (Hang l, s') => (Never l, s')
  end.

End Program.

Arguments M P A : clear implicits.

Notation "x <- m ;; k" := (bind m (fun x => k))
  (at level 61, m at next level, right associativity).
Notation "m ;; k" := (bind m (fun _ => k))
  (at level 61, right associativity).

(* ================================================================= *)
(** ** Concrete worlds, for running the program *)

Module Fixtures.

(** One search result, as the API sends it: [{"id": {"videoId": v}}]. *)
Definition item (v : string) : pyval :=
  VDict [("id"%string, VDict [("videoId"%string, VStr v)])].

(** A page of search results, with or without a continuation token. *)
Definition page (ids : list string) (token : option string) : reply :=
  Body (VDict (("items"%string, VList (map item ids))
               :: match token with
                  | Some t => [("nextPageToken"%string, VStr t)]
                  | None => []
                  end)).

(** A channel lookup response. *)
Definition lookup (totalResults : Z) (ids : list string) : reply :=
  Body (VDict [("pageInfo"%string, VDict [("totalResults"%string, VInt totalResults)]);
               ("items"%string, VList (map (fun i => VDict [("id"%string, VStr i)]) ids))]).

Definition decimal (z : Z) : string :=
  DecimalString.NilZero.string_of_int (Z.to_int z).

(** A server that plays a script: the n-th request gets the n-th reply,
    whatever it asks, and requests past the end of the script fail.  The
    clock stands still at [t]. *)
Definition scripted (t : datetime) : platform :=
  {| World := list reply;
     http_get := fun _ w => match w with
                            | r :: rest => (r, rest)
                            | [] => (ConnectionFailed, [])
                            end;
     clock := fun w => (t, w);
     rfc3339 := decimal;
     py_str := fun _ => "?"%string;
     json_dumps := fun _ => "..."%string;
     int_max_str_digits := 4300;
     int_unicode := fun _ => None;
     strptime_unicode := fun _ => None |}.

(** A server without memory that answers every search with the same
    page, whatever the window. *)
Definition constant (r : reply) : platform :=
  {| World := unit;
     http_get := fun _ w => (r, w);
     clock := fun w => (0, w);
     rfc3339 := decimal;
     py_str := fun _ => "?"%string;
     json_dumps := fun _ => "..."%string;
     int_max_str_digits := 4300;
     int_unicode := fun _ => None;
     strptime_unicode := fun _ => None |}.

Definition start {P : platform} (w : World P) : state P := mkState w [].

(** A channel whose every window holds the one video "v". *)
Definition one_page : platform := constant (page ["v"%string] None).

Definition one_page_start : state one_page := mkState (P:=one_page) tt [].

(** The scripted server about to play [script]. *)
Definition play (script : list reply) : state (scripted 0) :=
  mkState (P:=scripted 0) script [].

(** Fifty identifiers: a full page. *)
Definition fifty_ids : list string :=
  map (fun n => decimal (Z.of_nat n)) (seq 1 50).

End Fixtures.

(* ================================================================= *)
(** ** Summaries used to state the properties *)

Section Summaries.

Context {P : platform}.

Definition lookup_url (key name : string) : string :=
  youtubeChannelsApiUrl key ^^ requestParametersChannelId name.

(** What the [try] body of [get_channel_id] makes of a reply: the
    identifier it extracts, or the exception that interrupts it. *)
Definition lookup_outcome (r : reply) : pure pyval :=
  match r with
  | ConnectionFailed => Err ConnectionError
  | Malformed => Err JSONDecodeError
  | Body responseAsJson =>
      pure_bind (totalResults_gt responseAsJson 0) (fun found =>
      if (found : bool) then
        pure_bind (getitem responseAsJson "items") (fun items =>
        pure_bind (getitem0 items) (fun returnedInfo =>
        dict_get returnedInfo "id"))
      else Err (PyException no_channel_msg))
  end.

Definition search_url (key : string) (channelId : pyval)
    (publishedBefore publishedAfter : string) (pageToken : pyval) : string :=
  youtubeSearchApiUrl key
  ^^ requestChannelVideosInfo (P:=P) channelId publishedBefore publishedAfter pageToken.

(** What one turn of the pagination loop makes of a reply: the
    identifiers it appends to [videoList], the continuation token it goes
    on with (if any), and the exception that stopped it (if any). *)
Definition page_outcome (r : reply) : list pyval * option pyval * option exn :=
  match r with
  | ConnectionFailed => ([], None, Some ConnectionError)
  | Malformed => ([], None, Some JSONDecodeError)
  | Body responseAsJson =>
      match getitem responseAsJson "items" with
      | Err e => ([], None, Some e)
      | Ok returnedVideos =>
          match py_iter returnedVideos with
          | Err e => ([], None, Some e)
          | Ok videos =>
              match append_ids videos [] with
              | (ids, Some e) => (ids, None, Some e)
              | (ids, None) =>
                  match getitem responseAsJson "nextPageToken" with
                  | Ok token => (ids, Some token, None)
                  | Err _ => (ids, None, None)
                  end
              end
          end
      end
  end.

Definition page_ids (r : reply) : list pyval := fst (fst (page_outcome r)).
Definition page_next (r : reply) : option pyval := snd (fst (page_outcome r)).
Definition page_error (r : reply) : option exn := snd (page_outcome r).

(** The continuation token a reply carries, if it carries one. *)
Definition continuation (r : reply) : option pyval :=
  match r with
  | Body responseAsJson =>
      match getitem responseAsJson "nextPageToken" with
      | Ok token => Some token
      | Err _ => None
      end
  | _ => None
  end.

(** [exchange key cid before after w token rs]: asked for the pages of one
    window, starting with [token] and going on with the token of each
    reply, the server in state [w] answers [rs]; every reply but the last
    carries a continuation token, and the last carries none. *)
Fixpoint exchange (key : string) (channelId : pyval) (before after : string)
    (w : World P) (token : pyval) (rs : list reply) : Prop :=
  match rs with
  | [] => False
  | r :: rest =>
      fst (http_get P (search_url key channelId before after token) w) = r /\
      match continuation r with
      | None => rest = []
      | Some token' =>
          exchange key channelId before after
            (snd (http_get P (search_url key channelId before after token) w))
            token' rest
      end
  end.

(** Every window of the channel is listed in at most [pages] pages: asked
    for any window from any state, the server ends the exchange within
    [pages] replies. *)
Definition finite_listing (pages : nat) (key : string) (channelId : pyval) : Prop :=
  forall (before after : string) (w : World P),
  exists rs,
    exchange key channelId before after w (VStr EmptyString) rs
    /\ (List.length rs <= pages)%nat.

(** The channel does not change: the reply to a request depends on the
    request alone, not on what the server has been asked before. *)
Definition unchanging : Prop :=
  forall (url : string) (w w' : World P),
    fst (http_get P url w) = fst (http_get P url w').

(** A computation whose outcome does not depend on the state it starts in. *)
Definition oblivious {A : Type} (m : M P A) : Prop :=
  forall s s' : state P, fst (m s) = fst (m s').

(** A reply that the loop reads to its end, and one that fills a page. *)
Definition page_ok (r : reply) : Prop := page_error r = None.
Definition full_page (r : reply) : Prop := List.length (page_ids r) = 50%nat.

(** [tiles earliest upper ws]: the windows [ws], written (upper bound,
    lower bound) from the most recent to the oldest, tile
    [[earliest, upper]]: the first one starts at [upper], each next one
    starts where the one before it ended, and the last one, and only the
    last one, ends at [earliest]. *)
Fixpoint tiles (earliest upper : datetime) (ws : list (datetime * datetime)) : Prop :=
  match ws with
  | [] => False
  | (u, l) :: rest =>
      u = upper /\
      match rest with
      | [] => l = earliest /\ earliest <= upper
      | _ :: _ => earliest < l < upper /\ tiles earliest l rest
      end
  end.

(** [schedule n earliest interval upper]: [n] windows of full width
    going back from [upper], then one last window down to [earliest]. *)
Fixpoint schedule (n : nat) (earliest : datetime) (timeInterval : timedelta)
    (upper : datetime) : list (datetime * datetime) :=
  match n with
  | O => [(upper, earliest)]
  | S n' =>
      (upper, upper - timeInterval)
      :: schedule n' earliest timeInterval (upper - timeInterval)
  end.

(** The two bounds of a window as the search API receives them. *)
Definition window_bounds (w : datetime * datetime) : string * string :=
  (rfc3339 P (fst w), rfc3339 P (snd w)).

(** The number of windows of a range: the least [k >= 1] with
    [latest - k * interval <= earliest]. *)
Definition rounds (earliest latest : datetime) (timeInterval : timedelta) : Z :=
  Z.max 1 ((latest - earliest + timeInterval - 1) / timeInterval).

End Summaries.

Arguments search_url P key channelId publishedBefore publishedAfter pageToken : clear implicits.
Arguments window_bounds P w : clear implicits.
Arguments unchanging P : clear implicits.
Arguments finite_listing P pages key channelId : clear implicits.

(* ================================================================= *)
(** ** More of the program: the verbosity [read_args] selects *)

(** The three flags of the mutually exclusive group of [read_args]. *)
Record verbosity : Type := mkVerbosity {
  verbose : bool;
  debug : bool;
  quiet : bool
}.

(** Lines 70-77: the level [read_args] sets on the logger. *)
Definition read_args_level (f : verbosity) : level :=
  if verbose f then INFO
  else if debug f then DEBUG
  else if quiet f then ERROR
  else WARNING.

(** The numeric value of a level in [logging]. *)
Definition levelno (l : level) : Z :=
  match l with
  | DEBUG => 10
  | INFO => 20
  | WARNING => 30
  | ERROR => 40
  | CRITICAL => 50
  end.

(** The records of a trace that a logger set to [configured] hands to its
    handler: those whose level is not below it. *)
Definition shown (configured : level) (t : list event) : list event :=
  filter (fun e => match e with
                   | LogRecord lvl _ _ _ => levelno configured <=? levelno lvl
                   | _ => false
                   end) t.

(** The lines a trace prints on standard output, oldest first. *)
Fixpoint stdout_of (t : list event) : list pyval :=
  match t with
  | [] => []
  | Stdout line :: rest => line :: stdout_of rest
  | _ :: rest => stdout_of rest
  end.

(* ================================================================= *)
(** ** Further summaries *)

Section FurtherSummaries.

Context {P : platform}.

(** [adds I m]: whatever state [m] starts from, it only appends to the
    trace, and every event it appends satisfies [I]. *)
Definition adds {A : Type} (I : event -> Prop) (m : M P A) : Prop :=
  forall s : state P,
  exists t, trace (snd (m s)) = trace s ++ t /\ Forall I t.

(** A request [main] may make for [key] and the channel [name]: the
    lookup of that name, or a search made with that key. *)
Definition api_request (key name : string) (url : string) : Prop :=
  url = lookup_url key name
  \/ (exists cid before after token, url = search_url P key cid before after token).

Definition request_to_api (key name : string) (e : event) : Prop :=
  match e with
  | HttpGet url => api_request key name url
  | _ => True
  end.

(** A log record is at ERROR or CRITICAL level exactly when it carries an
    exception, and otherwise at DEBUG or INFO level. *)
Definition well_levelled (e : event) : Prop :=
  match e with
  | LogRecord lvl _ _ (Some _) => lvl = ERROR \/ lvl = CRITICAL
  | LogRecord lvl _ _ None => lvl = DEBUG \/ lvl = INFO
  | _ => True
  end.

(** The tokens of the requests of an exchange: the first, then the
    continuation of each reply that carries one. *)
Definition exchange_tokens (token : pyval) (rs : list reply) : list pyval :=
  token :: flat_map (fun r => match continuation r with
                              | Some t => [t]
                              | None => []
                              end) rs.

(** The identifiers one window contributes, fetched from state [s]. *)
Definition window_videos (pages : nat) (key : string) (cid : pyval) (s : state P)
    (w : datetime * datetime) : list pyval :=
  match fst (_get_channel_videos_published_in_interval pages key cid
               (rfc3339 P (fst w)) (rfc3339 P (snd w)) s) with
  | Ret videoList => videoList
  | _ => []
  end.

(** Every search for the channel fails, whatever the window and token. *)
Definition searches_fail (key : string) (cid : pyval) : Prop :=
  forall (before after : string) (token : pyval) (w : World P),
    fst (http_get P (search_url P key cid before after token) w) = ConnectionFailed.

End FurtherSummaries.

Arguments api_request P key name url : clear implicits.
Arguments request_to_api P key name e : clear implicits.
Arguments searches_fail P key cid : clear implicits.

(* ================================================================= *)
(** ** The runtime model on examples *)

Example strptime_2005 (P : platform) :
  strptime P "2005-02-14" = Ok (datetime_ymd 2005 2 14).
Proof. reflexivity. Qed.

Example ordinal_2005 : ymd2ord 2005 2 14 = 731991.
Proof. reflexivity. Qed.

Example ordinal_max : ymd2ord 9999 12 31 = MAXORDINAL.
Proof. reflexivity. Qed.

Example strptime_bad_day (P : platform) : strptime P "2021-02-29" = Err ValueError.
Proof. reflexivity. Qed.

(** Months and days may come without their leading zero, a day also with
    a space in its place; nothing may follow the day, and the year has
    four digits and is not 0. *)
Example strptime_short_fields (P : platform) :
  strptime P "2020-1-1" = Ok (datetime_ymd 2020 1 1)
  /\ strptime P "2020-01- 5" = Ok (datetime_ymd 2020 1 5)
  /\ strptime P "2020-01-35" = Err ValueError
  /\ strptime P "2020-01-01 " = Err ValueError
  /\ strptime P "20200-01-01" = Err ValueError
  /\ strptime P "0000-01-01" = Err ValueError.
Proof. repeat split. Qed.

Example py_int_180 (P : platform) : py_int P " 180" = Ok 180.
Proof. reflexivity. Qed.

Example py_int_bad (P : platform) : py_int P "18 0" = Err ValueError.
Proof. reflexivity. Qed.

(** Signs, underscores and the white space [int] strips: a file separator
    (character 28) is not part of it on ASCII text. *)
Example py_int_forms (P : platform) :
  py_int P "+5" = Ok 5
  /\ py_int P "-1_0" = Ok (-10)
  /\ py_int P "007" = Ok 7
  /\ py_int P "- 5" = Err ValueError
  /\ py_int P "1__0" = Err ValueError
  /\ py_int P "1_" = Err ValueError
  /\ py_int P EmptyString = Err ValueError
  /\ py_int P (String (ascii_of_nat 11) "5") = Ok 5
  /\ py_int P (String (ascii_of_nat 28) "5") = Err ValueError.
Proof. repeat split. Qed.

(** The limit on digits, at the default of 4300: a literal of 4300 digits
    is read, one of 4301 digits is a [ValueError], whatever the digits;
    with the limit switched off both are read. *)
Example py_int_digit_limit :
  int_ascii 4300 (string_of_list_ascii (repeat "1"%char 4300))
  = Ok ((10 ^ 4300 - 1) / 9)
  /\ int_ascii 4300 (string_of_list_ascii (repeat "1"%char 4301)) = Err ValueError
  /\ int_ascii 4300 (string_of_list_ascii (repeat "0"%char 4301)) = Err ValueError
  /\ int_ascii 0 (string_of_list_ascii (repeat "0"%char 4301)) = Ok 0
  /\ py_int (Fixtures.scripted 0) (string_of_list_ascii (repeat "1"%char 4301))
     = Err ValueError.
Proof. vm_compute. repeat split. Qed.

Example defaultTimeToGoBackTo_parsed (P : platform) :
  strptime P "2005-02-14" = Ok defaultTimeToGoBackTo.
Proof. reflexivity. Qed.

(* ================================================================= *)
(** ** Reading traces *)

Lemma requests_of_app (t u : list event) :
  requests_of (t ++ u) = requests_of t ++ requests_of u.
Proof.
  induction t as [|e t IH]; simpl; [reflexivity|].
  destruct e; simpl; rewrite IH; reflexivity.
Qed.

Lemma anomalies_of_app (t u : list event) :
  anomalies_of (t ++ u) = anomalies_of t ++ anomalies_of u.
Proof.
  induction t as [|e t IH]; simpl; [reflexivity|].
  destruct e as [url|lvl msg args [x|]|v]; simpl; rewrite IH; reflexivity.
Qed.

Lemma windows_of_cons (e : event) (t : list event) :
  windows_of (e :: t) = windows_of [e] ++ windows_of t.
Proof.
  destruct e as [url|lvl msg args exc|v]; try reflexivity.
  destruct lvl; try reflexivity.
  destruct args as [|[] [|[] [|? ?]]]; try reflexivity.
  destruct exc; try reflexivity.
  simpl. destruct (String.eqb msg window_msg); reflexivity.
Qed.

Lemma windows_of_app (t u : list event) :
  windows_of (t ++ u) = windows_of t ++ windows_of u.
Proof.
  induction t as [|e t IH]; [reflexivity|].
  rewrite <- app_comm_cons, windows_of_cons, IH, (windows_of_cons e t).
  apply app_assoc.
Qed.

(** Unfolds the monad's operations, then normalises the trace so that it
    reads [trace s ++ [e1; e2; ...]]. *)
Ltac unfold_monad :=
  unfold bind, try_except, log, log_exc, emit, ret, raise, hang, lift,
    requests_get, json_loads, now in *.

Ltac flatten_trace := repeat rewrite <- app_assoc; simpl app.

(* ================================================================= *)
(** ** Channel resolution *)

Section Resolver.

Context {P : platform}.

Lemma totalResults_gt_again (j : pyval) (b : bool) :
  totalResults_gt j 0 = Ok b -> exists b', totalResults_gt j 1 = Ok b'.
Proof.
  unfold totalResults_gt.
  destruct (getitem j "pageInfo") as [pageInfo|]; simpl; [|discriminate].
  destruct (dict_get pageInfo "totalResults") as [total|]; simpl; [|discriminate].
  destruct total as [|c|z|[|n|num den]|s|l|kvs|d|d]; simpl;
    intros H; try discriminate; eexists; reflexivity.
Qed.

Lemma totalResults_gt_mono (j : pyval) :
  totalResults_gt j 1 = Ok true -> totalResults_gt j 0 = Ok true.
Proof.
  unfold totalResults_gt.
  destruct (getitem j "pageInfo") as [pageInfo|]; simpl; [|discriminate].
  destruct (dict_get pageInfo "totalResults") as [total|]; simpl; [|discriminate].
  destruct total as [|c|z|[|n|num den]|s|l|kvs|d|d]; simpl;
    intros H; try discriminate; try assumption;
    injection H as H; f_equal; try (destruct c; discriminate);
    apply Z.ltb_lt in H; apply Z.ltb_lt; lia.
Qed.

(** The whole of [get_channel_id] in one equation: one request, the
    value returned, and the error record written when the body was
    interrupted. *)
Lemma get_channel_id_run (key name : string) (s : state P) :
  exists t,
    get_channel_id key name s
    = (Ret (match lookup_outcome (fst (http_get P (lookup_url key name) (world s))) with
            | Ok v => v
            | Err _ => VInt (-1)
            end),
       mkState (snd (http_get P (lookup_url key name) (world s))) (trace s ++ t))
    /\ requests_of t = [lookup_url key name]
    /\ windows_of t = []
    /\ anomalies_of t
       = match lookup_outcome (fst (http_get P (lookup_url key name) (world s))) with
         | Ok _ => []
         | Err e => [(ERROR, e)]
         end.
Proof.
  unfold get_channel_id, lookup_url. unfold_monad. simpl.
  destruct (http_get P _ (world s)) as [r w]. simpl.
  destruct r as [| |j]; simpl.
  - eexists. split; [flatten_trace; reflexivity|]. repeat split.
  - eexists. split; [flatten_trace; reflexivity|]. repeat split.
  - destruct (totalResults_gt j 0) as [[|]|e] eqn:H0; simpl.
    + destruct (getitem j "items") as [items|e]; simpl.
      * destruct (getitem0 items) as [info|e]; simpl.
        -- destruct (dict_get info "id") as [cid|e]; simpl.
           ++ destruct (totalResults_gt_again j true H0) as [b' H1].
              rewrite H1. simpl.
              destruct b'; simpl;
                (eexists; split; [flatten_trace; reflexivity|]; repeat split).
           ++ eexists. split; [flatten_trace; reflexivity|]. repeat split.
        -- eexists. split; [flatten_trace; reflexivity|]. repeat split.
      * eexists. split; [flatten_trace; reflexivity|]. repeat split.
    + eexists. split; [flatten_trace; reflexivity|]. repeat split.
    + eexists. split; [flatten_trace; reflexivity|]. repeat split.
Qed.

End Resolver.

(* ================================================================= *)
(** ** Pagination of one window *)

Section Pagination.

Context {P : platform}.

Lemma append_ids_acc (videos videoList : list pyval) :
  append_ids videos videoList
  = (videoList ++ fst (append_ids videos []), snd (append_ids videos [])).
Proof.
  revert videoList. induction videos as [|video rest IH]; intros videoList; simpl.
  - rewrite app_nil_r. reflexivity.
  - destruct (pure_bind (dict_get video "id") (fun i => dict_get i "videoId")) as [v|e].
    + rewrite IH. rewrite (IH [v]). simpl. rewrite <- app_assoc. reflexivity.
    + simpl. rewrite app_nil_r. reflexivity.
Qed.

(** One turn in one equation: one request; the turn never raises. *)
Lemma page_turn_run (key : string) (cid : pyval) (before after : string)
    (token : pyval) (videoList : list pyval) (s : state P) :
  exists t,
    page_turn key cid before after token videoList s
    = (Ret (videoList ++ page_ids (fst (http_get P (search_url P key cid before after token) (world s))),
            page_next (fst (http_get P (search_url P key cid before after token) (world s)))),
       mkState (snd (http_get P (search_url P key cid before after token) (world s)))
               (trace s ++ t))
    /\ requests_of t = [search_url P key cid before after token]
    /\ windows_of t = []
    /\ anomalies_of t
       = match page_error (fst (http_get P (search_url P key cid before after token) (world s))) with
         | Some e => [(ERROR, e)]
         | None => []
         end.
Proof.
  unfold page_turn, search_url, page_ids, page_next, page_error, page_outcome.
  unfold_monad. simpl.
  destruct (http_get P _ (world s)) as [r w]. simpl.
  destruct r as [| |j]; simpl.
  - rewrite app_nil_r. eexists. split; [flatten_trace; reflexivity|]. repeat split.
  - rewrite app_nil_r. eexists. split; [flatten_trace; reflexivity|]. repeat split.
  - destruct (getitem j "items") as [items|e]; simpl.
    + destruct (py_iter items) as [videos|e]; simpl.
      * rewrite (append_ids_acc videos videoList).
        destruct (append_ids videos []) as [ids [e|]]; simpl.
        -- eexists. split; [flatten_trace; reflexivity|]. repeat split.
        -- destruct (getitem j "nextPageToken") as [tok|e]; simpl;
             (eexists; split; [flatten_trace; reflexivity|]; repeat split).
      * rewrite app_nil_r. eexists. split; [flatten_trace; reflexivity|]. repeat split.
    + rewrite app_nil_r. eexists. split; [flatten_trace; reflexivity|]. repeat split.
Qed.

Lemma page_loop_S (fuel : nat) (key : string) (cid : pyval) (before after : string)
    (token : pyval) (videoList : list pyval) (s : state P) :
  page_loop (S fuel) key cid before after token videoList s
  = match page_turn key cid before after token videoList s with
    | (Ret (videoList', Some token'), s') =>
        page_loop fuel key cid before after token' videoList' s'
    | (Ret (videoList', None), s') => (Ret videoList', s')
    | (Raise e, s') => (Raise e, s')
    | (Hang l, s') => (Hang l, s')
    end.
Proof.
  simpl. unfold bind.
  destruct (page_turn key cid before after token videoList s) as [[[vl [t|]]|e|l] s'];
    reflexivity.
Qed.

(** The loop never raises: it returns the list it was given, extended, or
    it is still turning when the fuel runs out.  It opens no window. *)
Lemma page_loop_shape (fuel : nat) (key : string) (cid : pyval) (before after : string) :
  forall (token : pyval) (videoList : list pyval) (s : state P),
  exists t w,
    snd (page_loop fuel key cid before after token videoList s)
    = mkState w (trace s ++ t)
    /\ windows_of t = []
    /\ (fst (page_loop fuel key cid before after token videoList s) = Hang PaginationLoop
        \/ exists more,
             fst (page_loop fuel key cid before after token videoList s)
             = Ret (videoList ++ more)).
Proof.
  induction fuel as [|fuel IH]; intros token videoList s.
  - exists [], (world s). simpl. rewrite app_nil_r. destruct s; auto.
  - rewrite page_loop_S.
    destruct (page_turn_run key cid before after token videoList s)
      as [t [Hrun [_ [Hwin _]]]].
    rewrite Hrun.
    destruct (page_next _) as [token'|].
    + destruct (IH token' (videoList ++ page_ids (fst (http_get P (search_url P key cid before after token) (world s))))
                  (mkState (snd (http_get P (search_url P key cid before after token) (world s))) (trace s ++ t)))
        as [t' [w' [Hst [Hwin' Hres]]]].
      exists (t ++ t'), w'. rewrite Hst. simpl. rewrite app_assoc.
      split; [reflexivity|]. split.
      * rewrite windows_of_app, Hwin, Hwin'. reflexivity.
      * destruct Hres as [Hh|[more Hr]]; [left; exact Hh|right].
        exists (page_ids (fst (http_get P (search_url P key cid before after token) (world s))) ++ more).
        rewrite Hr, app_assoc. reflexivity.
    + exists t, (snd (http_get P (search_url P key cid before after token) (world s))).
      simpl. split; [reflexivity|]. split; [exact Hwin|].
      right. eexists. reflexivity.
Qed.

Lemma page_next_continuation (r : reply) (token : pyval) :
  page_next r = Some token -> continuation r = Some token.
Proof.
  unfold page_next, page_outcome, continuation.
  destruct r as [| |j]; simpl; try discriminate.
  destruct (getitem j "items") as [items|e]; simpl; [|discriminate].
  destruct (py_iter items) as [videos|e]; simpl; [|discriminate].
  destruct (append_ids videos []) as [ids [e|]]; simpl; [discriminate|].
  destruct (getitem j "nextPageToken") as [tok|e]; simpl; [auto|discriminate].
Qed.

Lemma page_ok_next (r : reply) :
  page_error r = None -> page_next r = continuation r.
Proof.
  unfold page_error, page_next, page_outcome, continuation.
  destruct r as [| |j]; simpl; try discriminate.
  destruct (getitem j "items") as [items|e]; simpl; [|discriminate].
  destruct (py_iter items) as [videos|e]; simpl; [|discriminate].
  destruct (append_ids videos []) as [ids [e|]]; simpl; [discriminate|].
  destruct (getitem j "nextPageToken") as [tok|e]; reflexivity.
Qed.

(** Along an exchange the loop makes one request per reply it reads, and
    none after the reply that ends it. *)
Lemma page_loop_exchange (key : string) (cid : pyval) (before after : string) :
  forall (rs : list reply) (fuel : nat) (token : pyval) (videoList : list pyval)
         (s : state P),
    exchange key cid before after (world s) token rs ->
    (List.length rs <= fuel)%nat ->
    exists (k : nat) (t : list event) (w : World P),
      (1 <= k <= List.length rs)%nat
      /\ page_loop fuel key cid before after token videoList s
         = (Ret (videoList ++ flat_map page_ids (firstn k rs)), mkState w (trace s ++ t))
      /\ List.length (requests_of t) = k
      /\ windows_of t = []
      /\ (Forall page_ok rs -> k = List.length rs).
Proof.
  induction rs as [|r rest IH]; intros fuel token videoList s Hex Hfuel;
    simpl in Hex; [contradiction|].
  destruct fuel as [|fuel]; [simpl in Hfuel; lia|].
  destruct Hex as [Hr Hcont].
  rewrite page_loop_S.
  destruct (page_turn_run key cid before after token videoList s)
    as [t [Hrun [Hreq [Hwin _]]]].
  rewrite Hrun, Hr.
  destruct (page_next r) as [token'|] eqn:Hnext.
  - rewrite (page_next_continuation r token' Hnext) in Hcont.
    destruct (IH fuel token' (videoList ++ page_ids r)
                (mkState (snd (http_get P (search_url P key cid before after token) (world s)))
                         (trace s ++ t)) Hcont)
      as [k [t' [w [Hk [Hloop [Hlen [Hwin' Hall]]]]]]];
      [simpl in Hfuel; lia|].
    exists (S k), (t ++ t'), w. rewrite Hloop. simpl.
    repeat split; try lia.
    + rewrite <- !app_assoc. reflexivity.
    + rewrite requests_of_app, length_app, Hreq, Hlen. reflexivity.
    + rewrite windows_of_app, Hwin, Hwin'. reflexivity.
    + intros Hok. f_equal. apply Hall. exact (Forall_inv_tail Hok).
  - exists 1%nat, t, (snd (http_get P (search_url P key cid before after token) (world s))).
    simpl. rewrite app_nil_r.
    repeat split; try lia.
    + rewrite Hreq. reflexivity.
    + exact Hwin.
    + intros Hok. pose proof (Forall_inv Hok) as Hr1.
      rewrite <- (page_ok_next r Hr1), Hnext in Hcont. rewrite Hcont. reflexivity.
Qed.

(** Full pages hold fifty results each, so [n] pages of which all but the
    last are full hold at least [50 * (n - 1)] results. *)
Lemma full_pages_count (rs : list reply) :
  Forall full_page (removelast rs) ->
  (50 * (List.length rs - 1) <= List.length (flat_map page_ids rs))%nat.
Proof.
  induction rs as [|r rest IH]; intros Hfull; [simpl; lia|].
  destruct rest as [|r' rest']; [simpl; lia|].
  change (removelast (r :: r' :: rest')) with (r :: removelast (r' :: rest')) in Hfull.
  inversion Hfull as [|? ? Hr Hrest]; subst.
  specialize (IH Hrest). unfold full_page in Hr.
  change (flat_map page_ids (r :: r' :: rest'))
    with (page_ids r ++ flat_map page_ids (r' :: rest')).
  rewrite length_app, Hr. simpl List.length in *. lia.
Qed.

Lemma fetch_unfold (pages : nat) (key : string) (cid : pyval) (before after : string)
    (s : state P) :
  _get_channel_videos_published_in_interval pages key cid before after s
  = match page_loop pages key cid before after (VStr EmptyString) []
            (mkState (world s)
               (trace s ++ [LogRecord INFO window_msg [VStr before; VStr after] None])) with
    | (Ret videoList, s') =>
        (Ret videoList,
         mkState (world s')
           (trace s' ++ [LogRecord INFO "Found %d video(s) in this time interval"
                           [py_len videoList] None]))
    | (Raise e, s') => (Raise e, s')
    | (Hang l, s') => (Hang l, s')
    end.
Proof.
  unfold _get_channel_videos_published_in_interval. unfold_monad. simpl.
  destruct (page_loop pages key cid before after (VStr EmptyString) [] _) as [[vl|e|l] s'];
    reflexivity.
Qed.

(** A call of [_get_channel_videos_published_in_interval] opens exactly
    one window, with its two bounds, and never raises. *)
Lemma fetch_shape (pages : nat) (key : string) (cid : pyval) (before after : string)
    (s : state P) :
  windows_of (trace (snd (_get_channel_videos_published_in_interval pages key cid before after s)))
  = windows_of (trace s) ++ [(before, after)]
  /\ (fst (_get_channel_videos_published_in_interval pages key cid before after s)
       = Hang PaginationLoop
      \/ exists vids,
           fst (_get_channel_videos_published_in_interval pages key cid before after s)
           = Ret vids).
Proof.
  rewrite fetch_unfold.
  destruct (page_loop_shape pages key cid before after (VStr EmptyString) []
              (mkState (world s) (trace s ++ [LogRecord INFO window_msg [VStr before; VStr after] None])))
    as [t [w [Hst [Hwin Hres]]]].
  destruct (page_loop pages key cid before after (VStr EmptyString) [] _)
    as [r s'] eqn:Hloop.
  simpl in Hst, Hres. subst s'.
  destruct Hres as [Hh|[more Hr]]; subst r; simpl.
  - split; [|left; reflexivity].
    rewrite !windows_of_app, Hwin, app_nil_r. reflexivity.
  - split; [|right; eexists; reflexivity].
    rewrite !windows_of_app, Hwin. simpl. rewrite !app_nil_r. reflexivity.
Qed.

(** A whole call along an exchange: it returns the identifiers of the
    pages it read, after one request per page. *)
Lemma fetch_exchange (pages : nat) (key : string) (cid : pyval) (before after : string)
    (s : state P) (rs : list reply) :
  exchange key cid before after (world s) (VStr EmptyString) rs ->
  (List.length rs <= pages)%nat ->
  exists (k : nat) (t : list event) (w : World P),
    (1 <= k <= List.length rs)%nat
    /\ _get_channel_videos_published_in_interval pages key cid before after s
       = (Ret (flat_map page_ids (firstn k rs)), mkState w (trace s ++ t))
    /\ List.length (requests_of t) = k
    /\ (Forall page_ok rs -> k = List.length rs).
Proof.
  intros Hex Hlen. rewrite fetch_unfold.
  destruct (page_loop_exchange key cid before after rs pages (VStr EmptyString) []
              (mkState (world s)
                 (trace s ++ [LogRecord INFO window_msg [VStr before; VStr after] None]))
              Hex Hlen)
    as [k [t [w [Hk [Hloop [Hreq [_ Hall]]]]]]].
  rewrite Hloop. simpl.
  exists k, (LogRecord INFO window_msg [VStr before; VStr after] None :: t
             ++ [LogRecord INFO "Found %d video(s) in this time interval"
                   [py_len (flat_map page_ids (firstn k rs))] None]), w.
  repeat split; try lia.
  - rewrite <- !app_assoc. reflexivity.
  - simpl. rewrite requests_of_app, length_app, Hreq. simpl. lia.
  - exact Hall.
Qed.

End Pagination.

(* ================================================================= *)
(** ** The window loop *)

Section Windows.

Context {P : platform}.

Lemma sub_ok (d : datetime) (td : timedelta) :
  datetime_min <= d - td <= datetime_max -> sub d td = Ok (d - td).
Proof.
  intros [H1 H2]. unfold sub.
  apply Z.leb_le in H1. apply Z.leb_le in H2. rewrite H1, H2. reflexivity.
Qed.

Lemma sub_overflow (d : datetime) (td : timedelta) :
  d - td < datetime_min -> sub d td = Err OverflowError.
Proof.
  intros H. unfold sub. apply Z.leb_gt in H. rewrite H. reflexivity.
Qed.

(** Names the state a window's fetch starts from, and splits on how the
    fetch ends. *)
Ltac fetch_cases Hwin r s2 :=
  match goal with
  | |- context [_get_channel_videos_published_in_interval ?p ?k ?c ?b ?a ?st] =>
      let Hres := fresh "Hres" in
      destruct (fetch_shape p k c b a st) as [Hwin Hres];
      destruct (_get_channel_videos_published_in_interval p k c b a st) as [r s2];
      simpl in Hwin, Hres;
      destruct Hres as [Hres|[? Hres]]; subst r
  end.

(** The schedule tiles the range when [n] is the number of full windows
    that fit strictly above [earliest]. *)
Lemma schedule_tiles (E : datetime) (iv : timedelta) :
  0 < iv ->
  forall (n : nat) (u : datetime),
    E <= u ->
    u - (Z.of_nat n + 1) * iv <= E ->
    (0 < Z.of_nat n -> E < u - Z.of_nat n * iv) ->
    tiles E u (schedule n E iv u)
    /\ Forall (fun w => 0 <= fst w - snd w <= iv) (schedule n E iv u)
    /\ List.length (schedule n E iv u) = S n.
Proof.
  intros Hiv. induction n as [|n IH]; intros u HEu Hreach Hleast.
  - assert (Hlow : u - iv <= E) by lia.
    simpl. split; [auto|]. split; [|reflexivity].
    constructor; [simpl; lia|constructor].
  - assert (Hn : Z.of_nat (S n) = Z.of_nat n + 1) by lia.
    rewrite Hn in *.
    assert (HEl : E < u - iv) by nia.
    destruct (IH (u - iv)) as [Ht [Hf Hlen]]; try lia; try nia.
    simpl schedule. split; [|split].
    + simpl. split; [reflexivity|].
      destruct (schedule n E iv (u - iv)) as [|w ws] eqn:Hs; [discriminate|].
      split; [lia|exact Ht].
    + constructor; [simpl; lia|exact Hf].
    + simpl. rewrite Hlen. reflexivity.
Qed.

(** The loop, entered with upper bound [u] and lower bound [u - iv], [n]
    further subtractions away from [earliest]: unless a fetch is still
    paging when its fuel runs out, the loop returns, having opened the
    windows of the schedule in order. *)
Lemma window_loop_schedule (key : string) (cid : pyval) (E : datetime)
    (iv : timedelta) (pages : nat) :
  0 < iv ->
  forall (n fuel : nat) (u : datetime) (acc : list pyval) (s : state P),
    (n < fuel)%nat ->
    E <= u -> u <= datetime_max ->
    u - (Z.of_nat n + 1) * iv <= E ->
    (0 < Z.of_nat n -> E < u - Z.of_nat n * iv) ->
    datetime_min <= u - (Z.of_nat n + 1) * iv ->
    fst (window_loop fuel pages key cid E iv u (u - iv) acc s) = Hang PaginationLoop
    \/ exists vids,
         fst (window_loop fuel pages key cid E iv u (u - iv) acc s) = Ret vids
         /\ windows_of (trace (snd (window_loop fuel pages key cid E iv u (u - iv) acc s)))
            = windows_of (trace s) ++ map (window_bounds P) (schedule n E iv u).
Proof.
  intros Hiv. induction n as [|n IH];
    intros fuel u acc s Hfuel HEu Hmax Hreach Hleast Hmin;
    (destruct fuel as [|fuel]; [lia|]).
  - (* the last window *)
    assert (Hlow : u - iv <= E) by lia.
    simpl schedule. simpl window_loop. unfold_monad.
    assert (Hlast : (if u - iv <? E then E else u - iv) = E).
    { destruct (u - iv <? E) eqn:Hlt; [reflexivity|]. apply Z.ltb_ge in Hlt. lia. }
    destruct (u - iv <? E); simpl in Hlast |- *; try rewrite Hlast;
      rewrite Z.eqb_refl; simpl;
      fetch_cases Hwin r s2; simpl; auto;
      right; eexists; (split; [reflexivity|]); simpl;
      rewrite !windows_of_app, Hwin, !windows_of_app; simpl;
      rewrite !app_nil_r; reflexivity.
  - (* a window that is not the last *)
    assert (Hn : Z.of_nat (S n) = Z.of_nat n + 1) by lia.
    rewrite Hn in *.
    assert (HEl : E < u - iv) by nia.
    assert (Hsub : sub (u - iv) iv = Ok (u - iv - iv)) by (apply sub_ok; nia).
    simpl window_loop. unfold_monad.
    assert (Hlt : (u - iv <? E) = false) by (apply Z.ltb_ge; lia).
    assert (Hne : (u - iv =? E) = false) by (apply Z.eqb_neq; lia).
    rewrite Hlt. simpl. rewrite Hne. simpl.
    fetch_cases Hwin r s2; simpl; [left; reflexivity|].
    rewrite Hsub. simpl.
    match goal with
    | |- context [window_loop fuel pages key cid E iv (u - iv) (u - iv - iv) ?acc' ?st] =>
        destruct (IH fuel (u - iv) acc' st) as [Hh|[vids [Hr Hws]]];
          try lia; try nia
    end.
    + left. exact Hh.
    + right. exists vids. split; [exact Hr|].
      rewrite Hws. simpl trace.
      rewrite !windows_of_app, Hwin, !windows_of_app. simpl.
      rewrite !app_nil_r, <- !app_assoc. reflexivity.
Qed.

Lemma rounds_spec (E L : datetime) (iv : timedelta) :
  0 < iv -> E <= L ->
  1 <= rounds E L iv
  /\ L - rounds E L iv * iv <= E
  /\ (1 < rounds E L iv -> E < L - (rounds E L iv - 1) * iv).
Proof.
  intros Hiv HEL. unfold rounds.
  pose proof (Z.mul_div_le (L - E + iv - 1) iv Hiv) as Hle.
  pose proof (Z.mul_succ_div_gt (L - E + iv - 1) iv Hiv) as Hgt.
  destruct (Z.max_spec 1 ((L - E + iv - 1) / iv)) as [[Hc Hm]|[Hc Hm]];
    rewrite Hm; repeat split; try lia; nia.
Qed.

Lemma get_channel_videos_resolved (fuel pages : nat) (key : string) (cid : pyval)
    (E L : datetime) (iv : timedelta) (s : state P) :
  get_channel_videos fuel pages key cid (DateObj E) (DateObj L) (IvDelta iv) s
  = collect fuel pages key cid E L iv s.
Proof. reflexivity. Qed.

(** The collector on a well-formed range: unless a fetch is still paging
    when its fuel runs out, it returns, having opened the windows of the
    schedule in order. *)
Lemma collect_schedule (fuel pages : nat) (key : string) (cid : pyval)
    (E L : datetime) (iv : timedelta) (s : state P) :
  E <= L -> L <= datetime_max -> 0 < iv ->
  datetime_min <= L - rounds E L iv * iv ->
  (Z.to_nat (rounds E L iv) <= fuel)%nat ->
  fst (collect fuel pages key cid E L iv s) = Hang PaginationLoop
  \/ exists vids,
       fst (collect fuel pages key cid E L iv s) = Ret vids
       /\ windows_of (trace (snd (collect fuel pages key cid E L iv s)))
          = windows_of (trace s)
            ++ map (window_bounds P) (schedule (Z.to_nat (rounds E L iv - 1)) E iv L).
Proof.
  intros HEL Hmax Hiv Hmin Hfuel.
  destruct (rounds_spec E L iv Hiv HEL) as [Hk1 [Hreach Hleast]].
  assert (Hn : Z.of_nat (Z.to_nat (rounds E L iv - 1)) + 1 = rounds E L iv) by lia.
  unfold collect. unfold_monad.
  assert (Hlt : (L <? E) = false) by (apply Z.ltb_ge; lia).
  rewrite Hlt. simpl.
  rewrite (sub_ok L iv) by nia. simpl.
  assert (Hleast' : 0 < Z.of_nat (Z.to_nat (rounds E L iv - 1)) ->
                    E < L - Z.of_nat (Z.to_nat (rounds E L iv - 1)) * iv).
  { intros Hpos.
    replace (Z.of_nat (Z.to_nat (rounds E L iv - 1))) with (rounds E L iv - 1) by lia.
    apply Hleast. lia. }
  match goal with
  | |- context [window_loop fuel pages key cid E iv L (L - iv) [] ?st] =>
      pose proof (window_loop_schedule key cid E iv pages Hiv
                    (Z.to_nat (rounds E L iv - 1)) fuel L [] st
                    ltac:(lia) HEL Hmax ltac:(rewrite Hn; exact Hreach) Hleast'
                    ltac:(rewrite Hn; exact Hmin)) as Hloop;
      destruct (window_loop fuel pages key cid E iv L (L - iv) [] st) as [r s2]
  end.
  simpl in Hloop. destruct Hloop as [Hh|[vids [Hr Hws]]]; subst r; simpl.
  - left. reflexivity.
  - right. exists vids. split; [reflexivity|].
    rewrite !windows_of_app, Hws, !windows_of_app. simpl.
    rewrite !app_nil_r. reflexivity.
Qed.

(** With a finite listing no fetch is cut short, so the window loop is
    never left waiting for one. *)
Lemma window_loop_no_page_hang (pages : nat) (key : string) (cid : pyval)
    (E : datetime) (iv : timedelta) :
  finite_listing P pages key cid ->
  forall (fuel : nat) (u l : datetime) (acc : list pyval) (s : state P),
    fst (window_loop fuel pages key cid E iv u l acc s) <> Hang PaginationLoop.
Proof.
  intros Hfin. induction fuel as [|fuel IH]; intros u l acc s;
    [simpl; discriminate|].
  simpl window_loop. unfold_monad.
  destruct (l <? E); simpl;
    match goal with |- context [?x =? E] => destruct (x =? E) end; simpl;
    match goal with
    | |- context [_get_channel_videos_published_in_interval ?p ?k ?c ?b ?a ?st] =>
        destruct (Hfin b a (world st)) as [rs [Hex Hlen]];
        destruct (fetch_exchange p k c b a st rs Hex Hlen) as [k' [t [w [_ [Hrun _]]]]];
        rewrite Hrun
    end; simpl; try discriminate;
    match goal with |- context [sub ?d iv] => destruct (sub d iv) end; simpl;
    try discriminate; apply IH.
Qed.

Lemma collect_no_page_hang (fuel pages : nat) (key : string) (cid : pyval)
    (E L : datetime) (iv : timedelta) (s : state P) :
  finite_listing P pages key cid ->
  fst (collect fuel pages key cid E L iv s) <> Hang PaginationLoop.
Proof.
  intros Hfin. unfold collect. unfold_monad.
  destruct (L <? E); simpl; [discriminate|].
  destruct (sub L iv); simpl; [|discriminate].
  match goal with
  | |- context [window_loop fuel pages key cid E iv L ?l ?acc ?st] =>
      pose proof (window_loop_no_page_hang pages key cid E iv Hfin fuel L l acc st) as Hno;
      destruct (window_loop fuel pages key cid E iv L l acc st) as [[vl|e|h] s2]
  end; simpl in *; try discriminate; exact Hno.
Qed.

End Windows.

(* ================================================================= *)
(** ** Outcomes that do not depend on the starting state *)

Section Oblivious.

Context {P : platform}.

Lemma oblivious_ret {A} (a : A) : oblivious (P:=P) (ret a).
Proof. intros s s'. reflexivity. Qed.

Lemma oblivious_raise {A} (e : exn) : oblivious (P:=P) (@raise P A e).
Proof. intros s s'. reflexivity. Qed.

Lemma oblivious_hang {A} (l : loop_id) : oblivious (P:=P) (@hang P A l).
Proof. intros s s'. reflexivity. Qed.

Lemma oblivious_lift {A} (r : pure A) : oblivious (P:=P) (lift r).
Proof. intros s s'. unfold lift. destruct r; reflexivity. Qed.

Lemma oblivious_log (lvl : level) (msg : string) (args : list pyval) :
  oblivious (P:=P) (log lvl msg args).
Proof. intros s s'. reflexivity. Qed.

Lemma oblivious_bind {A B} (m : M P A) (k : A -> M P B) :
  oblivious m -> (forall a, oblivious (k a)) -> oblivious (bind m k).
Proof.
  intros Hm Hk s s'. unfold bind. specialize (Hm s s').
  destruct (m s) as [[a|e|l] s1], (m s') as [[a'|e'|l'] s1']; simpl in Hm;
    try discriminate; injection Hm as Hm; subst; simpl; try reflexivity.
  apply Hk.
Qed.

Lemma oblivious_page_loop (key : string) (cid : pyval) (before after : string) :
  unchanging P ->
  forall (fuel : nat) (token : pyval) (videoList : list pyval),
    oblivious (P:=P) (page_loop fuel key cid before after token videoList).
Proof.
  intros Hsame. induction fuel as [|fuel IH]; intros token videoList s s';
    [reflexivity|].
  rewrite !page_loop_S.
  destruct (page_turn_run key cid before after token videoList s) as [t [Hrun _]].
  destruct (page_turn_run key cid before after token videoList s') as [t' [Hrun' _]].
  rewrite Hrun, Hrun'. clear Hrun Hrun'.
  pose proof (Hsame (search_url P key cid before after token) (world s) (world s')) as Hr.
  rewrite Hr.
  destruct (page_next (fst (http_get P (search_url P key cid before after token) (world s'))));
    cbv iota beta; [apply IH|reflexivity].
Qed.

Lemma oblivious_fetch (pages : nat) (key : string) (cid : pyval) (before after : string) :
  unchanging P ->
  oblivious (P:=P) (_get_channel_videos_published_in_interval pages key cid before after).
Proof.
  intros Hsame s s'. rewrite !fetch_unfold.
  pose proof (oblivious_page_loop key cid before after Hsame pages (VStr EmptyString) []
                (mkState (world s) (trace s ++ [LogRecord INFO window_msg [VStr before; VStr after] None]))
                (mkState (world s') (trace s' ++ [LogRecord INFO window_msg [VStr before; VStr after] None])))
    as Heq.
  destruct (page_loop pages key cid before after (VStr EmptyString) [] _) as [[vl|e|l] s1],
           (page_loop pages key cid before after (VStr EmptyString) [] _) as [[vl'|e'|l'] s1'];
    simpl in Heq; try discriminate; injection Heq as Heq; subst; reflexivity.
Qed.

(** Takes a computation apart along [bind] and its branches. *)
Ltac oblivious_steps :=
  repeat first
    [ apply oblivious_ret
    | apply oblivious_raise
    | apply oblivious_hang
    | apply oblivious_lift
    | apply oblivious_log
    | assumption
    | apply oblivious_bind; [|intros]
    | match goal with
      | |- oblivious (if ?b then _ else _) => destruct b
      | |- oblivious (match ?x with _ => _ end) => destruct x
      end ].

Lemma oblivious_window_loop (pages : nat) (key : string) (cid : pyval)
    (E : datetime) (iv : timedelta) :
  unchanging P ->
  forall (fuel : nat) (u l : datetime) (acc : list pyval),
    oblivious (P:=P) (window_loop fuel pages key cid E iv u l acc).
Proof.
  intros Hsame. induction fuel as [|fuel IH]; intros u l acc;
    [apply oblivious_hang|].
  simpl window_loop.
  apply oblivious_bind; [oblivious_steps|intros l'].
  apply oblivious_bind; [oblivious_steps|intros done].
  apply oblivious_bind; [oblivious_steps|intros _].
  apply oblivious_bind; [apply oblivious_fetch; exact Hsame|intros vids].
  oblivious_steps. apply IH.
Qed.

Lemma oblivious_collect (fuel pages : nat) (key : string) (cid : pyval)
    (E L : datetime) (iv : timedelta) :
  unchanging P -> oblivious (P:=P) (collect fuel pages key cid E L iv).
Proof.
  intros Hsame. unfold collect.
  apply oblivious_bind; [oblivious_steps|intros _].
  apply oblivious_bind; [oblivious_steps|intros _].
  apply oblivious_bind; [oblivious_steps|intros l].
  apply oblivious_bind; [apply oblivious_window_loop; exact Hsame|intros vids].
  oblivious_steps.
Qed.

Lemma bind_same_outcome {A B} (m : M P A) (k : A -> M P B) (s s' : state P) :
  fst (m s) = fst (m s') -> (forall a, oblivious (k a)) ->
  fst (bind m k s) = fst (bind m k s').
Proof.
  intros Hm Hk. unfold bind.
  destruct (m s) as [[a|e|l] s1], (m s') as [[a'|e'|l'] s1']; simpl in Hm;
    try discriminate; injection Hm as Hm; subst; simpl; try reflexivity.
  apply Hk.
Qed.

(** The arguments resolve alike from two states as soon as the clock,
    if it is read at all, reads the same in both. *)
Lemma resolve_arguments_same (earliest latest : date_arg)
    (timeInterval : interval_arg) (s s' : state P) :
  (latest = DateNone -> fst (clock P (world s)) = fst (clock P (world s'))) ->
  fst (resolve_arguments earliest latest timeInterval s)
  = fst (resolve_arguments earliest latest timeInterval s').
Proof.
  intros Hclock. unfold resolve_arguments. unfold_monad.
  destruct latest as [|l|l]; destruct earliest, timeInterval; simpl;
    repeat match goal with
           | |- context [strptime ?p ?x] => destruct (strptime p x); simpl
           | |- context [py_int ?p ?x] => destruct (py_int p x); simpl
           | |- context [timedelta_days ?x] => destruct (timedelta_days x); simpl
           end;
    try reflexivity;
    specialize (Hclock eq_refl);
    destruct (clock P (world s)) as [t w], (clock P (world s')) as [t' w'];
    simpl in Hclock |- *; subst t'; reflexivity.
Qed.

Lemma get_channel_videos_same (fuel pages : nat) (key : string) (cid : pyval)
    (earliest latest : date_arg) (timeInterval : interval_arg) (s s' : state P) :
  unchanging P ->
  (latest = DateNone -> fst (clock P (world s)) = fst (clock P (world s'))) ->
  fst (get_channel_videos fuel pages key cid earliest latest timeInterval s)
  = fst (get_channel_videos fuel pages key cid earliest latest timeInterval s').
Proof.
  intros Hsame Hclock. unfold get_channel_videos.
  apply bind_same_outcome.
  - apply resolve_arguments_same. exact Hclock.
  - intros [[E L] iv]. apply oblivious_collect. exact Hsame.
Qed.

End Oblivious.

(* ================================================================= *)
(** ** Properties of channel resolution *)

Lemma main_without_id (P : platform) (fuel pages : nat) (a : args)
    (s s1 : state P) (v : pyval) :
  get_channel_id (apiKey a) (channel a) s = (Ret v, s1) ->
  py_eq_int v (-1) = true ->
  main fuel pages a s
  = (Exit 2,
     mkState (world s1)
       (trace s1 ++ [LogRecord CRITICAL "We tried our best but still.." []
                       (Some (PyException no_id_msg))])).
Proof.
  intros Hid Hminus. unfold main, main_body. unfold bind at 1.
  rewrite Hid. unfold bind at 1. rewrite Hminus. reflexivity.
Qed.

(** C5.  When the channel lookup reports no matching result,
    [get_channel_id] raises, inside its [try], the exception whose message
    says that the channel id could not be retrieved; the exception is
    logged at ERROR level and the function returns -1.  [main] then ends
    with exit status 2.  The run consists of the lookup request alone:
    what [main] logs last is the exception it raised for want of an
    identifier, so [get_channel_videos] was never called, no window was
    opened and no search request was sent. *)
Theorem zero_matches_is_fatal (P : platform) (fuel pages : nat) (a : args)
    (s : state P) (j : pyval) (w : World P) :
  http_get P (lookup_url (apiKey a) (channel a)) (world s) = (Body j, w) ->
  totalResults_gt j 0 = Ok false ->
  exists t,
    get_channel_id (apiKey a) (channel a) s
    = (Ret (VInt (-1)), mkState w (trace s ++ t))
    /\ anomalies_of t = [(ERROR, PyException no_channel_msg)]
    /\ requests_of t = [lookup_url (apiKey a) (channel a)]
    /\ windows_of t = []
    /\ main fuel pages a s
       = (Exit 2,
          mkState w
            ((trace s ++ t)
             ++ [LogRecord CRITICAL "We tried our best but still.." []
                   (Some (PyException no_id_msg))])).
Proof.
  intros Hget Hzero.
  destruct (get_channel_id_run (apiKey a) (channel a) s) as [t [Hrun [Hreq [Hwin Hano]]]].
  rewrite Hget in Hrun, Hano. simpl in Hrun, Hano. rewrite Hzero in Hrun, Hano.
  simpl in Hrun, Hano.
  exists t. repeat split; try assumption.
  rewrite (main_without_id P fuel pages a s _ _ Hrun); reflexivity.
Qed.

Lemma zero_matches_is_fatal_witness :
  exists t,
    get_channel_id (P:=Fixtures.scripted 0) "K" "nobody"
      (Fixtures.start (P:=Fixtures.scripted 0) [Fixtures.lookup 0 []])
    = (Ret (VInt (-1)), mkState (P:=Fixtures.scripted 0) [] ([] ++ t))
    /\ anomalies_of t = [(ERROR, PyException no_channel_msg)]
    /\ requests_of t = [lookup_url "K" "nobody"]
    /\ windows_of t = []
    /\ main (P:=Fixtures.scripted 0) 5 5 (mkArgs "K" "nobody" None None None)
         (Fixtures.start (P:=Fixtures.scripted 0) [Fixtures.lookup 0 []])
       = (Exit 2,
          mkState (P:=Fixtures.scripted 0) []
            (([] ++ t)
             ++ [LogRecord CRITICAL "We tried our best but still.." []
                   (Some (PyException no_id_msg))])).
Proof.
  apply (zero_matches_is_fatal (Fixtures.scripted 0) 5 5
           (mkArgs "K" "nobody" None None None)
           (Fixtures.start (P:=Fixtures.scripted 0) [Fixtures.lookup 0 []])
           (VDict [("pageInfo"%string, VDict [("totalResults"%string, VInt 0)]);
                   ("items"%string, VList [])])
           []);
    reflexivity.
Defined.

(** C6.  When the lookup reports more than one match and the response
    holds a first result, [get_channel_id] returns the [id] of that first
    result.  Nothing is logged as an error; the only trace of the
    ambiguity is the DEBUG record, which is the last event of the call. *)
Theorem several_matches_return_the_first (P : platform) (key name : string)
    (s : state P) (j items returnedInfo cid : pyval) (w : World P) :
  http_get P (lookup_url key name) (world s) = (Body j, w) ->
  totalResults_gt j 1 = Ok true ->
  getitem j "items" = Ok items ->
  getitem0 items = Ok returnedInfo ->
  dict_get returnedInfo "id" = Ok cid ->
  exists t,
    get_channel_id key name s = (Ret cid, mkState w (trace s ++ t))
    /\ anomalies_of t = []
    /\ requests_of t = [lookup_url key name]
    /\ last t (HttpGet EmptyString)
       = LogRecord DEBUG
           "Multiple channels were received in the response. If this happens, something can probably be improved around here"
           [] None.
Proof.
  intros Hget Hmany Hitems Hfirst Hid.
  pose proof (totalResults_gt_mono j Hmany) as Hfound.
  unfold get_channel_id, lookup_url in *. unfold_monad. simpl in Hget |- *.
  rewrite Hget. simpl. rewrite Hfound. simpl.
  rewrite Hitems. simpl. rewrite Hfirst. simpl. rewrite Hid. simpl.
  rewrite Hmany. simpl.
  eexists. split; [flatten_trace; reflexivity|].
  repeat split.
Qed.

Lemma several_matches_return_the_first_witness :
  exists t,
    get_channel_id (P:=Fixtures.scripted 0) "K" "twins"
      (Fixtures.start (P:=Fixtures.scripted 0) [Fixtures.lookup 2 ["UC-first"%string; "UC-second"%string]])
    = (Ret (VStr "UC-first"), mkState (P:=Fixtures.scripted 0) [] ([] ++ t))
    /\ anomalies_of t = []
    /\ requests_of t = [lookup_url "K" "twins"]
    /\ last t (HttpGet EmptyString)
       = LogRecord DEBUG
           "Multiple channels were received in the response. If this happens, something can probably be improved around here"
           [] None.
Proof.
  apply (several_matches_return_the_first (Fixtures.scripted 0) "K" "twins"
           (Fixtures.start (P:=Fixtures.scripted 0) [Fixtures.lookup 2 ["UC-first"%string; "UC-second"%string]])
           (VDict [("pageInfo"%string, VDict [("totalResults"%string, VInt 2)]);
                   ("items"%string,
                    VList [VDict [("id"%string, VStr "UC-first")];
                           VDict [("id"%string, VStr "UC-second")]])])
           (VList [VDict [("id"%string, VStr "UC-first")];
                   VDict [("id"%string, VStr "UC-second")]])
           (VDict [("id"%string, VStr "UC-first")])
           (VStr "UC-first") []);
    reflexivity.
Defined.

(** C10.  [get_channel_id] never raises and never loops: from every state
    and for every reply it returns a value.  The value is the identifier
    its [try] body extracts when the body runs to its end, and -1 in every
    other case (the request fails, the body is not JSON, the response has
    not the expected shape, or it reports no match), each of which also
    leaves one ERROR record carrying the exception.  Nothing but the
    returned value tells the caller what happened, and [main] turns a
    returned -1 into exit status 2 without sending another request. *)
Theorem get_channel_id_never_raises (P : platform) (key name : string) (s : state P) :
  exists v s',
    get_channel_id key name s = (Ret v, s')
    /\ requests_of (trace s') = requests_of (trace s) ++ [lookup_url key name]
    /\ match lookup_outcome (fst (http_get P (lookup_url key name) (world s))) with
       | Ok cid => v = cid /\ anomalies_of (trace s') = anomalies_of (trace s)
       | Err e =>
           v = VInt (-1)
           /\ anomalies_of (trace s') = anomalies_of (trace s) ++ [(ERROR, e)]
       end
    /\ forall (fuel pages : nat) (a : args),
         apiKey a = key -> channel a = name -> py_eq_int v (-1) = true ->
         exists s'',
           main fuel pages a s = (Exit 2, s'')
           /\ requests_of (trace s'') = requests_of (trace s) ++ [lookup_url key name]
           /\ windows_of (trace s'') = windows_of (trace s)
           /\ anomalies_of (trace s'')
              = anomalies_of (trace s') ++ [(CRITICAL, PyException no_id_msg)].
Proof.
  destruct (get_channel_id_run key name s) as [t [Hrun [Hreq [Hwin Hano]]]].
  eexists. eexists. split; [exact Hrun|]. simpl trace.
  split; [rewrite requests_of_app, Hreq; reflexivity|].
  split.
  - rewrite anomalies_of_app, Hano.
    destruct (lookup_outcome _); [rewrite app_nil_r|]; split; reflexivity.
  - intros fuel pages a Hkey Hname Hminus. subst key name.
    eexists. split; [exact (main_without_id P fuel pages a s _ _ Hrun Hminus)|].
    simpl trace.
    rewrite !requests_of_app, !windows_of_app, !anomalies_of_app, Hreq, Hwin.
    simpl. rewrite !app_nil_r. repeat split.
Qed.

(* ================================================================= *)
(** ** Properties of the pagination of one window *)


(** C3.  Take any exchange the server holds for one window: replies that
    each carry a continuation token, closed by the first reply that
    carries none.  Given a turn of the loop per reply, the call returns;
    it sends one request per reply it reads and none after the closing
    reply, so at most as many requests as the exchange has pages; and it
    returns the identifiers of the pages it read, in order.  When every
    reply is read to its end, all pages are read, and if every page but
    the last is full (50 results) the number of requests is at most the
    number of results divided by 50, plus one for the last page. *)
Theorem pagination_terminates (P : platform) (pages : nat) (key : string)
    (cid : pyval) (before after : string) (s : state P) (rs : list reply) :
  exchange key cid before after (world s) (VStr EmptyString) rs ->
  (List.length rs <= pages)%nat ->
  exists (k : nat) (s' : state P),
    (1 <= k <= List.length rs)%nat
    /\ _get_channel_videos_published_in_interval pages key cid before after s
       = (Ret (flat_map page_ids (firstn k rs)), s')
    /\ List.length (requests_of (trace s'))
       = (List.length (requests_of (trace s)) + k)%nat
    /\ (Forall page_ok rs ->
        k = List.length rs
        /\ (Forall full_page (removelast rs) ->
            Z.of_nat k <= Z.of_nat (List.length (flat_map page_ids rs)) / 50 + 1)).
Proof.
  intros Hex Hlen.
  destruct (fetch_exchange pages key cid before after s rs Hex Hlen)
    as [k [t [w [Hk [Hrun [Hreq Hall]]]]]].
  exists k, (mkState w (trace s ++ t)).
  split; [exact Hk|]. split; [exact Hrun|]. split.
  - simpl. rewrite requests_of_app, length_app, Hreq. reflexivity.
  - intros Hok. specialize (Hall Hok). split; [exact Hall|].
    intros Hfull. pose proof (full_pages_count rs Hfull) as Hcount.
    assert (Hq : Z.of_nat k - 1 <= Z.of_nat (List.length (flat_map page_ids rs)) / 50).
    { apply Z.div_le_lower_bound; lia. }
    lia.
Qed.

Lemma pagination_terminates_witness :
  exists (k : nat) (s' : state (Fixtures.scripted 0)),
    (1 <= k <= 2)%nat
    /\ _get_channel_videos_published_in_interval 2 "K" (VStr "UC") "b" "a"
         (Fixtures.start (P:=Fixtures.scripted 0)
            [Fixtures.page ["v1"%string; "v2"%string] (Some "more"%string);
             Fixtures.page ["v3"%string] None])
       = (Ret (flat_map page_ids
                 (firstn k [Fixtures.page ["v1"%string; "v2"%string] (Some "more"%string);
                            Fixtures.page ["v3"%string] None])), s')
    /\ List.length (requests_of (trace s')) = (0 + k)%nat
    /\ (Forall page_ok [Fixtures.page ["v1"%string; "v2"%string] (Some "more"%string);
                        Fixtures.page ["v3"%string] None] ->
        k = 2%nat
        /\ (Forall full_page
              (removelast [Fixtures.page ["v1"%string; "v2"%string] (Some "more"%string);
                           Fixtures.page ["v3"%string] None]) ->
            Z.of_nat k
            <= Z.of_nat (List.length
                           (flat_map page_ids
                              [Fixtures.page ["v1"%string; "v2"%string] (Some "more"%string);
                               Fixtures.page ["v3"%string] None])) / 50 + 1)).
Proof.
  apply (pagination_terminates (Fixtures.scripted 0) 2 "K" (VStr "UC") "b" "a"
           (Fixtures.start (P:=Fixtures.scripted 0)
              [Fixtures.page ["v1"%string; "v2"%string] (Some "more"%string);
               Fixtures.page ["v3"%string] None])
           [Fixtures.page ["v1"%string; "v2"%string] (Some "more"%string);
            Fixtures.page ["v3"%string] None]).
  - simpl. repeat split.
  - simpl. lia.
Defined.

(** The loop has no bound of its own: against a server that sends a
    continuation token with every reply it is still turning after any
    number of turns. *)
Lemma endless_listing_never_returns (fuel : nat) (token : pyval)
    (videoList : list pyval)
    (s : state (Fixtures.constant (Fixtures.page ["v"%string] (Some "again"%string)))) :
  fst (page_loop fuel "K" (VStr "UC") "b" "a" token videoList s) = Hang PaginationLoop.
Proof.
  revert token videoList s. induction fuel as [|fuel IH]; intros token videoList s;
    [reflexivity|].
  rewrite page_loop_S.
  destruct (page_turn_run "K" (VStr "UC") "b" "a" token videoList s) as [t [Hrun _]].
  rewrite Hrun. simpl. apply IH.
Qed.


(* ================================================================= *)
(** ** Properties of the window partition *)

(** Scenario D of the spec, run: the first window's second page fails
    after 50 identifiers were read from its first page.  The output keeps
    those 50, one anomaly is logged, and the two remaining windows are
    fetched as usual. *)
Example scenario_D :
  let P := Fixtures.scripted 0 in
  let run :=
    get_channel_videos (P:=P) 3 5 "K" (VStr "UC")
      (DateStr "2020-01-01") (DateStr "2021-06-01") (IvInt 180)
      (Fixtures.start (P:=P)
         [Fixtures.page Fixtures.fifty_ids (Some "next"%string);
          ConnectionFailed;
          Fixtures.page ["older"%string] None;
          Fixtures.page ["oldest"%string] None]) in
  fst run = Ret (map VStr (Fixtures.fifty_ids ++ ["older"%string; "oldest"%string]))
  /\ anomalies_of (trace (snd run)) = [(ERROR, ConnectionError)]
  /\ List.length (requests_of (trace (snd run))) = 4%nat
  /\ windows_of (trace (snd run))
     = map (window_bounds P)
         [(datetime_ymd 2021 6 1, datetime_ymd 2020 12 3);
          (datetime_ymd 2020 12 3, datetime_ymd 2020 6 6);
          (datetime_ymd 2020 6 6, datetime_ymd 2020 1 1)].
Proof. vm_compute. repeat split. Qed.

(** Whatever the server and the fuel, a first lower bound that falls
    before [datetime.min] ends the call with [OverflowError], before any
    window is opened. *)
Lemma first_bound_overflow (P : platform) (fuel pages : nat) (key : string)
    (cid : pyval) (E L : datetime) (iv : timedelta) (s : state P) :
  E <= L -> L - iv < datetime_min ->
  fst (collect fuel pages key cid E L iv s) = Raise OverflowError
  /\ windows_of (trace (snd (collect fuel pages key cid E L iv s)))
     = windows_of (trace s).
Proof.
  intros HEL Hlow. unfold collect. unfold_monad.
  assert (Hlt : (L <? E) = false) by (apply Z.ltb_ge; lia).
  rewrite Hlt. simpl. rewrite (sub_overflow L iv Hlow). simpl.
  split; [reflexivity|].
  rewrite windows_of_app. simpl. apply app_nil_r.
Qed.

(** C1.  The code departs from the claim on this input: the range is
    well formed and the interval is a positive [timedelta], so the claim
    has one window, clamped to [[earliest, latest]]; the code produces
    none.  It subtracts before it clamps (line 182, and line 210 in the
    loop): the first lower bound, [latest - interval], falls before year
    1, the subtraction raises [OverflowError], and the call ends there,
    having logged its opening line only, whatever the server answers and
    whatever fuel the loops are given. *)
Lemma huge_interval_raises_overflow :
  datetime_ymd 2020 1 1 <= datetime_ymd 2021 6 1
  /\ 0 < 1000000 * us_per_day
  /\ timedelta_days 1000000 = Ok (1000000 * us_per_day)
  /\ forall fuel pages : nat,
       get_channel_videos (P:=Fixtures.constant (Fixtures.page [] None)) fuel pages
         "K" (VStr "UC")
         (DateObj (datetime_ymd 2020 1 1)) (DateObj (datetime_ymd 2021 6 1))
         (IvDelta (1000000 * us_per_day))
         (Fixtures.start (P:=Fixtures.constant (Fixtures.page [] None)) tt)
       = (Raise OverflowError,
          mkState (P:=Fixtures.constant (Fixtures.page [] None)) tt
            [LogRecord INFO "Searching for videos published in channel between %s and %s"
               [VDatetime (datetime_ymd 2021 6 1); VDatetime (datetime_ymd 2020 1 1)]
               None]).
Proof.
  split; [vm_compute; discriminate|].
  split; [vm_compute; reflexivity|].
  split; [reflexivity|].
  intros fuel pages. reflexivity.
Qed.

(** The subtraction of line 210 fails in the same way after windows have
    been fetched: two windows of ten days are searched, the third lower
    bound falls before year 1, and the call raises instead of returning
    the videos it has found. *)
Example overflow_inside_the_loop :
  let run := get_channel_videos (P:=Fixtures.one_page) 5 1 "K" (VStr "UC")
               (DateObj (datetime_ymd 1 1 5)) (DateObj (datetime_ymd 1 1 30))
               (IvInt 10) Fixtures.one_page_start in
  fst run = Raise OverflowError
  /\ windows_of (trace (snd run))
     = map (window_bounds Fixtures.one_page)
         [(datetime_ymd 1 1 30, datetime_ymd 1 1 20);
          (datetime_ymd 1 1 20, datetime_ymd 1 1 10)]
  /\ List.length (requests_of (trace (snd run))) = 2%nat.
Proof. vm_compute. repeat split. Qed.

(** X12.  Where the subtractions of lines 182 and 210 stay within
    [datetime], the windows are the partition the loop is written for.
    For every range with [earliest <= latest], every strictly positive
    interval and every server, provided the lower bound the loop computes
    last, [latest - rounds * interval], is still a representable
    [datetime], and the window loop is given a turn per window: the call
    never raises and its window loop ends; unless the pagination of a
    window is cut short by its own fuel, which does not happen when the
    channel's listing is finite, the call returns, and the windows it has
    opened are, in order, windows that tile
    [[earliest, latest]]: the first starts at [latest], each next one
    starts where the one before it ended, none is wider than the interval,
    and the last ends exactly at [earliest]. *)
Theorem windows_tile_the_range (P : platform) (fuel pages : nat) (key : string)
    (cid : pyval) (earliest latest : datetime) (timeInterval : timedelta)
    (s : state P) :
  earliest <= latest ->
  latest <= datetime_max ->
  0 < timeInterval ->
  datetime_min <= latest - rounds earliest latest timeInterval * timeInterval ->
  (Z.to_nat (rounds earliest latest timeInterval) <= fuel)%nat ->
  exists ws,
    tiles earliest latest ws
    /\ Forall (fun w => 0 <= fst w - snd w <= timeInterval) ws
    /\ Z.of_nat (List.length ws) = rounds earliest latest timeInterval
    /\ (fst (get_channel_videos fuel pages key cid
               (DateObj earliest) (DateObj latest) (IvDelta timeInterval) s)
        = Hang PaginationLoop
        \/ exists vids,
             fst (get_channel_videos fuel pages key cid
                    (DateObj earliest) (DateObj latest) (IvDelta timeInterval) s)
             = Ret vids
             /\ windows_of
                  (trace (snd (get_channel_videos fuel pages key cid
                                 (DateObj earliest) (DateObj latest)
                                 (IvDelta timeInterval) s)))
                = windows_of (trace s) ++ map (window_bounds P) ws)
    /\ (finite_listing P pages key cid ->
        fst (get_channel_videos fuel pages key cid
               (DateObj earliest) (DateObj latest) (IvDelta timeInterval) s)
        <> Hang PaginationLoop).
Proof.
  intros HEL Hmax Hiv Hmin Hfuel.
  destruct (rounds_spec earliest latest timeInterval Hiv HEL) as [Hk1 [Hreach Hleast]].
  assert (Hn : Z.of_nat (Z.to_nat (rounds earliest latest timeInterval - 1)) + 1
               = rounds earliest latest timeInterval) by lia.
  exists (schedule (Z.to_nat (rounds earliest latest timeInterval - 1))
            earliest timeInterval latest).
  destruct (schedule_tiles earliest timeInterval Hiv
              (Z.to_nat (rounds earliest latest timeInterval - 1)) latest HEL)
    as [Ht [Hf Hlen]].
  { rewrite Hn. exact Hreach. }
  { intros Hpos.
    replace (Z.of_nat (Z.to_nat (rounds earliest latest timeInterval - 1)))
      with (rounds earliest latest timeInterval - 1) by lia.
    apply Hleast. lia. }
  rewrite get_channel_videos_resolved.
  split; [exact Ht|]. split; [exact Hf|]. split; [rewrite Hlen; lia|].
  split.
  - apply collect_schedule; assumption.
  - intros Hfin. apply collect_no_page_hang. exact Hfin.
Qed.

Lemma windows_tile_the_range_witness :
  exists ws,
    tiles (datetime_ymd 2020 1 1) (datetime_ymd 2021 6 1) ws
    /\ Forall (fun w => 0 <= fst w - snd w <= 180 * us_per_day) ws
    /\ Z.of_nat (List.length ws)
       = rounds (datetime_ymd 2020 1 1) (datetime_ymd 2021 6 1) (180 * us_per_day)
    /\ (fst (get_channel_videos (P:=Fixtures.one_page)
               3 1 "K" (VStr "UC")
               (DateObj (datetime_ymd 2020 1 1)) (DateObj (datetime_ymd 2021 6 1))
               (IvDelta (180 * us_per_day)) Fixtures.one_page_start)
        = Hang PaginationLoop
        \/ exists vids,
             fst (get_channel_videos (P:=Fixtures.one_page)
                    3 1 "K" (VStr "UC")
                    (DateObj (datetime_ymd 2020 1 1)) (DateObj (datetime_ymd 2021 6 1))
                    (IvDelta (180 * us_per_day)) Fixtures.one_page_start)
             = Ret vids
             /\ windows_of
                  (trace (snd (get_channel_videos
                                 (P:=Fixtures.one_page)
                                 3 1 "K" (VStr "UC")
                                 (DateObj (datetime_ymd 2020 1 1))
                                 (DateObj (datetime_ymd 2021 6 1))
                                 (IvDelta (180 * us_per_day)) Fixtures.one_page_start)))
                = windows_of (trace Fixtures.one_page_start)
                  ++ map (window_bounds Fixtures.one_page) ws)
    /\ (finite_listing Fixtures.one_page 1 "K" (VStr "UC") ->
        fst (get_channel_videos (P:=Fixtures.one_page)
               3 1 "K" (VStr "UC")
               (DateObj (datetime_ymd 2020 1 1)) (DateObj (datetime_ymd 2021 6 1))
               (IvDelta (180 * us_per_day)) Fixtures.one_page_start)
        <> Hang PaginationLoop).
Proof.
  apply (windows_tile_the_range Fixtures.one_page
           3 1 "K" (VStr "UC") (datetime_ymd 2020 1 1) (datetime_ymd 2021 6 1)
           (180 * us_per_day) Fixtures.one_page_start).
  - vm_compute. discriminate.
  - vm_compute. discriminate.
  - vm_compute. reflexivity.
  - vm_compute. discriminate.
  - vm_compute. lia.
Defined.

Lemma get_channel_videos_parsed (P : platform) (fuel pages : nat) (key : string)
    (cid : pyval) (e l : string) (n : Z) (E L : datetime) (iv : timedelta)
    (s : state P) :
  strptime P e = Ok E -> strptime P l = Ok L -> timedelta_days n = Ok iv ->
  get_channel_videos fuel pages key cid (DateStr e) (DateStr l) (IvInt n) s
  = collect fuel pages key cid E L iv s.
Proof.
  intros He Hl Hn. unfold get_channel_videos, resolve_arguments. unfold_monad.
  rewrite He, Hl, Hn. reflexivity.
Qed.

(** C7.  Scenario B of the spec.  Called with earliest "2020-01-01",
    latest "2021-06-01" and an interval of 180 days, and given at least
    three turns of the window loop, the collector opens exactly three
    windows, in this order: 2021-06-01 back to 2020-12-03, 2020-12-03 back
    to 2020-06-06, and 2020-06-06 back to 2020-01-01, the last lower bound
    being [earliest] itself.  This holds against every server whose
    paginations end within their fuel, as they do when the listing is
    finite. *)
Theorem scenario_B_three_windows (P : platform) (extra pages : nat) (key : string)
    (cid : pyval) (s : state P) :
  (fst (get_channel_videos (3 + extra) pages key cid
          (DateStr "2020-01-01") (DateStr "2021-06-01") (IvInt 180) s)
   = Hang PaginationLoop
   \/ exists vids,
        fst (get_channel_videos (3 + extra) pages key cid
               (DateStr "2020-01-01") (DateStr "2021-06-01") (IvInt 180) s)
        = Ret vids
        /\ windows_of
             (trace (snd (get_channel_videos (3 + extra) pages key cid
                            (DateStr "2020-01-01") (DateStr "2021-06-01") (IvInt 180) s)))
           = windows_of (trace s)
             ++ [(rfc3339 P (datetime_ymd 2021 6 1), rfc3339 P (datetime_ymd 2020 12 3));
                 (rfc3339 P (datetime_ymd 2020 12 3), rfc3339 P (datetime_ymd 2020 6 6));
                 (rfc3339 P (datetime_ymd 2020 6 6), rfc3339 P (datetime_ymd 2020 1 1))])
  /\ (finite_listing P pages key cid ->
      fst (get_channel_videos (3 + extra) pages key cid
             (DateStr "2020-01-01") (DateStr "2021-06-01") (IvInt 180) s)
      <> Hang PaginationLoop)
  /\ datetime_ymd 2021 6 1 - datetime_ymd 2020 12 3 = 180 * us_per_day
  /\ datetime_ymd 2020 12 3 - datetime_ymd 2020 6 6 = 180 * us_per_day
  /\ datetime_ymd 2020 6 6 - datetime_ymd 2020 1 1 < 180 * us_per_day.
Proof.
  rewrite (get_channel_videos_parsed P (3 + extra) pages key cid
             "2020-01-01" "2021-06-01" 180
             (datetime_ymd 2020 1 1) (datetime_ymd 2021 6 1) (180 * us_per_day) s)
    by reflexivity.
  assert (Hrounds : rounds (datetime_ymd 2020 1 1) (datetime_ymd 2021 6 1)
                      (180 * us_per_day) = 3) by (vm_compute; reflexivity).
  split; [|split].
  - destruct (collect_schedule (3 + extra) pages key cid
                (datetime_ymd 2020 1 1) (datetime_ymd 2021 6 1) (180 * us_per_day) s)
      as [Hh|[vids [Hr Hws]]].
    + vm_compute. discriminate.
    + vm_compute. discriminate.
    + vm_compute. reflexivity.
    + rewrite Hrounds. vm_compute. discriminate.
    + rewrite Hrounds. simpl. lia.
    + left. exact Hh.
    + right. exists vids. split; [exact Hr|].
      rewrite Hws, Hrounds. reflexivity.
  - intros Hfin. apply collect_no_page_hang. exact Hfin.
  - vm_compute. repeat split.
Qed.

(* ================================================================= *)
(** ** Properties of the arguments *)

(** Resolving the arguments writes nothing to the trace. *)
Lemma resolve_arguments_trace (P : platform) (earliest latest : date_arg)
    (timeInterval : interval_arg) (s : state P) :
  trace (snd (resolve_arguments earliest latest timeInterval s)) = trace s.
Proof.
  unfold resolve_arguments. unfold_monad.
  destruct earliest, latest, timeInterval; simpl;
    repeat match goal with
           | |- context [strptime ?p ?x] => destruct (strptime p x); simpl
           | |- context [py_int ?p ?x] => destruct (py_int p x); simpl
           | |- context [timedelta_days ?x] => destruct (timedelta_days x); simpl
           | |- context [clock P ?w] => destruct (clock P w); simpl
           end;
    reflexivity.
Qed.

(** C2.  Whenever the arguments resolve to a range with
    [latest < earliest], the call raises the exception that says so, right
    after its opening log record: the trace gains that record and nothing
    else, so no request is sent and no window is opened. *)
Theorem inverted_range_is_refused (P : platform) (fuel pages : nat) (key : string)
    (cid : pyval) (earliest latest : date_arg) (timeInterval : interval_arg)
    (s s1 : state P) (E L : datetime) (iv : timedelta) :
  resolve_arguments earliest latest timeInterval s = (Ret (E, L, iv), s1) ->
  L < E ->
  get_channel_videos fuel pages key cid earliest latest timeInterval s
  = (Raise (PyException bad_range_msg),
     mkState (world s1)
       (trace s ++ [LogRecord INFO
                      "Searching for videos published in channel between %s and %s"
                      [VDatetime L; VDatetime E] None]))
  /\ requests_of
       (trace (snd (get_channel_videos fuel pages key cid earliest latest timeInterval s)))
     = requests_of (trace s)
  /\ windows_of
       (trace (snd (get_channel_videos fuel pages key cid earliest latest timeInterval s)))
     = windows_of (trace s).
Proof.
  intros Hres Hlt.
  pose proof (resolve_arguments_trace P earliest latest timeInterval s) as Htr.
  rewrite Hres in Htr. simpl in Htr.
  assert (Hrun : get_channel_videos fuel pages key cid earliest latest timeInterval s
                 = (Raise (PyException bad_range_msg),
                    mkState (world s1)
                      (trace s ++ [LogRecord INFO
                                     "Searching for videos published in channel between %s and %s"
                                     [VDatetime L; VDatetime E] None]))).
  { unfold get_channel_videos. unfold bind at 1. rewrite Hres.
    unfold collect. unfold_monad. simpl.
    apply Z.ltb_lt in Hlt. rewrite Hlt. simpl. rewrite Htr. reflexivity. }
  rewrite Hrun. simpl.
  rewrite requests_of_app, windows_of_app. simpl. rewrite !app_nil_r.
  repeat split.
Qed.

Lemma inverted_range_is_refused_witness :
  get_channel_videos (P:=Fixtures.one_page) 5 5 "K" (VStr "UC")
    (DateStr "2021-06-01") (DateStr "2020-01-01") (IvStr "180") Fixtures.one_page_start
  = (Raise (PyException bad_range_msg),
     mkState (P:=Fixtures.one_page) (world Fixtures.one_page_start)
       (trace Fixtures.one_page_start
        ++ [LogRecord INFO
              "Searching for videos published in channel between %s and %s"
              [VDatetime (datetime_ymd 2020 1 1); VDatetime (datetime_ymd 2021 6 1)] None]))
  /\ requests_of
       (trace (snd (get_channel_videos (P:=Fixtures.one_page) 5 5 "K" (VStr "UC")
                      (DateStr "2021-06-01") (DateStr "2020-01-01") (IvStr "180")
                      Fixtures.one_page_start)))
     = requests_of (trace Fixtures.one_page_start)
  /\ windows_of
       (trace (snd (get_channel_videos (P:=Fixtures.one_page) 5 5 "K" (VStr "UC")
                      (DateStr "2021-06-01") (DateStr "2020-01-01") (IvStr "180")
                      Fixtures.one_page_start)))
     = windows_of (trace Fixtures.one_page_start).
Proof.
  apply (inverted_range_is_refused Fixtures.one_page 5 5 "K" (VStr "UC")
           (DateStr "2021-06-01") (DateStr "2020-01-01") (IvStr "180")
           Fixtures.one_page_start Fixtures.one_page_start
           (datetime_ymd 2021 6 1) (datetime_ymd 2020 1 1) (180 * us_per_day)).
  - reflexivity.
  - vm_compute. reflexivity.
Defined.



(** Day counts on an example: the string "180" and a [timedelta] of 180
    days lead to the same run. *)
Example one_hundred_and_eighty_days :
  py_int Fixtures.one_page "180" = Ok 180
  /\ get_channel_videos (P:=Fixtures.one_page) 3 1 "K" (VStr "UC")
       (DateStr "2020-01-01") (DateStr "2021-06-01") (IvStr "180") Fixtures.one_page_start
     = get_channel_videos (P:=Fixtures.one_page) 3 1 "K" (VStr "UC")
         (DateStr "2020-01-01") (DateStr "2021-06-01") (IvDelta (180 * us_per_day))
         Fixtures.one_page_start
  /\ fst (get_channel_videos (P:=Fixtures.one_page) 3 1 "K" (VStr "UC")
            (DateStr "2020-01-01") (DateStr "2021-06-01") (IvStr "180")
            Fixtures.one_page_start)
     = Ret [VStr "v"; VStr "v"; VStr "v"].
Proof. vm_compute. repeat split. Qed.

(* ================================================================= *)
(** ** Determinism *)

(** C9.  Against a channel that does not change (the reply to a request
    depends on the request alone), two calls with the same key, channel,
    bounds and interval end the same way whatever states they start from:
    if one returns a list, the other returns the same list in the same
    order.  The upper bound must be the same timestamp in both calls: it
    is given, or else the clock reads the same for both.  In particular a
    second run over a given range that starts where the first one stopped
    repeats its result. *)
Theorem collection_is_deterministic (P : platform) (fuel pages : nat) (key : string)
    (cid : pyval) (earliest latest : date_arg) (timeInterval : interval_arg)
    (s s' : state P) :
  unchanging P ->
  (latest = DateNone -> fst (clock P (world s)) = fst (clock P (world s'))) ->
  fst (get_channel_videos fuel pages key cid earliest latest timeInterval s)
  = fst (get_channel_videos fuel pages key cid earliest latest timeInterval s').
Proof.
  intros Hsame Hclock.
  apply (get_channel_videos_same fuel pages key cid earliest latest timeInterval s s'
           Hsame Hclock).
Qed.

Lemma collection_is_deterministic_witness :
  fst (get_channel_videos (P:=Fixtures.one_page) 3 1 "K" (VStr "UC")
         (DateStr "2020-01-01") (DateStr "2021-06-01") (IvStr "180")
         Fixtures.one_page_start)
  = fst (get_channel_videos (P:=Fixtures.one_page) 3 1 "K" (VStr "UC")
           (DateStr "2020-01-01") (DateStr "2021-06-01") (IvStr "180")
           (snd (get_channel_videos (P:=Fixtures.one_page) 3 1 "K" (VStr "UC")
                   (DateStr "2020-01-01") (DateStr "2021-06-01") (IvStr "180")
                   Fixtures.one_page_start))).
Proof.
  apply (collection_is_deterministic Fixtures.one_page 3 1 "K" (VStr "UC")
           (DateStr "2020-01-01") (DateStr "2021-06-01") (IvStr "180")).
  - intros url w w'. reflexivity.
  - intros Hnone. discriminate Hnone.
Defined.

(* ================================================================= *)
(** ** Further properties: the entry point *)

Lemma stdout_of_app (t u : list event) :
  stdout_of (t ++ u) = stdout_of t ++ stdout_of u.
Proof.
  induction t as [|e t IH]; simpl; [reflexivity|].
  destruct e; simpl; rewrite IH; reflexivity.
Qed.

Lemma stdout_of_lines (videos : list pyval) : stdout_of (map Stdout videos) = videos.
Proof. induction videos as [|v videos IH]; simpl; [|rewrite IH]; reflexivity. Qed.

Lemma print_all_run (P : platform) (videos : list pyval) (s : state P) :
  print_all videos s = (Ret tt, mkState (world s) (trace s ++ map Stdout videos)).
Proof.
  revert s. induction videos as [|v videos IH]; intros s; simpl.
  - unfold ret. rewrite app_nil_r. destruct s; reflexivity.
  - unfold bind, emit. rewrite IH. simpl. rewrite <- app_assoc. reflexivity.
Qed.

(** X1.  When the lookup yields an identifier other than -1 and the
    collection returns a list, [main] ends with status 0, whether the list
    is empty or not.  It prints exactly the identifiers of the list, one
    per line and in the list's order; for an empty list it prints nothing
    and logs, at INFO level, that no video was found. *)
Theorem main_prints_the_videos (P : platform) (fuel pages : nat) (a : args)
    (s s1 s2 : state P) (cid : pyval) (videos : list pyval) :
  get_channel_id (apiKey a) (channel a) s = (Ret cid, s1) ->
  py_eq_int cid (-1) = false ->
  get_channel_videos fuel pages (apiKey a) cid
    (date_of_option (earliest a)) (date_of_option (latest a))
    (interval_of_option (interval a)) s1
  = (Ret videos, s2) ->
  main fuel pages a s
  = (Exit 0,
     mkState (world s2)
       (trace s2
        ++ match videos with
           | [] => [LogRecord INFO
                      "No video found for that channel! Either there's none or a problem occurred. Enable verbose or debug logging for more details.."
                      [] None]
           | _ :: _ => map Stdout videos ++ [LogRecord INFO "Done!" [] None]
           end))
  /\ stdout_of (trace (snd (main fuel pages a s))) = stdout_of (trace s2) ++ videos
  /\ anomalies_of (trace (snd (main fuel pages a s))) = anomalies_of (trace s2).
Proof.
  intros Hid Hnot Hcollect.
  assert (Hrun : main fuel pages a s
                 = (Exit 0,
                    mkState (world s2)
                      (trace s2
                       ++ match videos with
                          | [] => [LogRecord INFO
                                     "No video found for that channel! Either there's none or a problem occurred. Enable verbose or debug logging for more details.."
                                     [] None]
                          | _ :: _ => map Stdout videos ++ [LogRecord INFO "Done!" [] None]
                          end))).
  { unfold main, main_body. unfold bind at 1. rewrite Hid.
    unfold bind at 1. rewrite Hnot. unfold ret at 1.
    unfold bind at 1. rewrite Hcollect.
    destruct videos as [|v videos].
    - reflexivity.
    - change (Z.of_nat (List.length (v :: videos)) <=? 0) with false.
      cbv iota. unfold bind at 1. rewrite print_all_run.
      unfold bind, log, emit, ret. simpl. rewrite <- !app_assoc. reflexivity. }
  rewrite Hrun. simpl. split; [reflexivity|].
  rewrite stdout_of_app, anomalies_of_app.
  destruct videos as [|v videos]; simpl.
  - rewrite !app_nil_r. split; reflexivity.
  - rewrite stdout_of_app, anomalies_of_app, stdout_of_lines. simpl.
    rewrite !app_nil_r.
    assert (Hno : forall l, anomalies_of (map Stdout l) = []).
    { induction l as [|x l IH]; simpl; [reflexivity|exact IH]. }
    rewrite Hno, app_nil_r. split; reflexivity.
Qed.

Lemma main_prints_the_videos_witness :
  main (P:=Fixtures.scripted 0) 3 2
    (mkArgs "K" "someone" (Some "2020-01-01"%string) (Some "2021-06-01"%string)
       (Some "180"%string))
    (Fixtures.play [Fixtures.lookup 1 ["UC"%string];
                    Fixtures.page ["new"%string] None;
                    Fixtures.page ["mid"%string] None;
                    Fixtures.page ["old"%string] None])
  = (Exit 0,
     mkState (P:=Fixtures.scripted 0)
       (world (snd (get_channel_videos (P:=Fixtures.scripted 0) 3 2 "K" (VStr "UC")
                      (DateStr "2020-01-01") (DateStr "2021-06-01") (IvStr "180")
                      (snd (get_channel_id (P:=Fixtures.scripted 0) "K" "someone"
                              (Fixtures.play [Fixtures.lookup 1 ["UC"%string];
                                              Fixtures.page ["new"%string] None;
                                              Fixtures.page ["mid"%string] None;
                                              Fixtures.page ["old"%string] None]))))))
       (trace (snd (get_channel_videos (P:=Fixtures.scripted 0) 3 2 "K" (VStr "UC")
                      (DateStr "2020-01-01") (DateStr "2021-06-01") (IvStr "180")
                      (snd (get_channel_id (P:=Fixtures.scripted 0) "K" "someone"
                              (Fixtures.play [Fixtures.lookup 1 ["UC"%string];
                                              Fixtures.page ["new"%string] None;
                                              Fixtures.page ["mid"%string] None;
                                              Fixtures.page ["old"%string] None])))))
        ++ map Stdout [VStr "new"; VStr "mid"; VStr "old"]
        ++ [LogRecord INFO "Done!" [] None]))
  /\ stdout_of
       (trace (snd (main (P:=Fixtures.scripted 0) 3 2
                      (mkArgs "K" "someone" (Some "2020-01-01"%string)
                         (Some "2021-06-01"%string) (Some "180"%string))
                      (Fixtures.play [Fixtures.lookup 1 ["UC"%string];
                                      Fixtures.page ["new"%string] None;
                                      Fixtures.page ["mid"%string] None;
                                      Fixtures.page ["old"%string] None]))))
     = stdout_of
         (trace (snd (get_channel_videos (P:=Fixtures.scripted 0) 3 2 "K" (VStr "UC")
                        (DateStr "2020-01-01") (DateStr "2021-06-01") (IvStr "180")
                        (snd (get_channel_id (P:=Fixtures.scripted 0) "K" "someone"
                                (Fixtures.play [Fixtures.lookup 1 ["UC"%string];
                                                Fixtures.page ["new"%string] None;
                                                Fixtures.page ["mid"%string] None;
                                                Fixtures.page ["old"%string] None]))))))
       ++ [VStr "new"; VStr "mid"; VStr "old"]
  /\ anomalies_of
       (trace (snd (main (P:=Fixtures.scripted 0) 3 2
                      (mkArgs "K" "someone" (Some "2020-01-01"%string)
                         (Some "2021-06-01"%string) (Some "180"%string))
                      (Fixtures.play [Fixtures.lookup 1 ["UC"%string];
                                      Fixtures.page ["new"%string] None;
                                      Fixtures.page ["mid"%string] None;
                                      Fixtures.page ["old"%string] None]))))
     = anomalies_of
         (trace (snd (get_channel_videos (P:=Fixtures.scripted 0) 3 2 "K" (VStr "UC")
                        (DateStr "2020-01-01") (DateStr "2021-06-01") (IvStr "180")
                        (snd (get_channel_id (P:=Fixtures.scripted 0) "K" "someone"
                                (Fixtures.play [Fixtures.lookup 1 ["UC"%string];
                                                Fixtures.page ["new"%string] None;
                                                Fixtures.page ["mid"%string] None;
                                                Fixtures.page ["old"%string] None])))))).
Proof.
  apply (main_prints_the_videos (Fixtures.scripted 0) 3 2
           (mkArgs "K" "someone" (Some "2020-01-01"%string) (Some "2021-06-01"%string)
              (Some "180"%string))
           (Fixtures.play [Fixtures.lookup 1 ["UC"%string];
                           Fixtures.page ["new"%string] None;
                           Fixtures.page ["mid"%string] None;
                           Fixtures.page ["old"%string] None])
           (snd (get_channel_id (P:=Fixtures.scripted 0) "K" "someone"
                   (Fixtures.play [Fixtures.lookup 1 ["UC"%string];
                                   Fixtures.page ["new"%string] None;
                                   Fixtures.page ["mid"%string] None;
                                   Fixtures.page ["old"%string] None])))
           (snd (get_channel_videos (P:=Fixtures.scripted 0) 3 2 "K" (VStr "UC")
                   (DateStr "2020-01-01") (DateStr "2021-06-01") (IvStr "180")
                   (snd (get_channel_id (P:=Fixtures.scripted 0) "K" "someone"
                           (Fixtures.play [Fixtures.lookup 1 ["UC"%string];
                                           Fixtures.page ["new"%string] None;
                                           Fixtures.page ["mid"%string] None;
                                           Fixtures.page ["old"%string] None])))))
           (VStr "UC") [VStr "new"; VStr "mid"; VStr "old"]);
    vm_compute; reflexivity.
Defined.

(** X2.  When the lookup yields an identifier other than -1 and the
    collection raises, [main] prints nothing, logs the exception at
    CRITICAL level as its last event and ends with status 2. *)
Theorem main_reports_a_failed_collection (P : platform) (fuel pages : nat) (a : args)
    (s s1 s2 : state P) (cid : pyval) (e : exn) :
  get_channel_id (apiKey a) (channel a) s = (Ret cid, s1) ->
  py_eq_int cid (-1) = false ->
  get_channel_videos fuel pages (apiKey a) cid
    (date_of_option (earliest a)) (date_of_option (latest a))
    (interval_of_option (interval a)) s1
  = (Raise e, s2) ->
  main fuel pages a s
  = (Exit 2,
     mkState (world s2)
       (trace s2 ++ [LogRecord CRITICAL "We tried our best but still.." [] (Some e)]))
  /\ stdout_of (trace (snd (main fuel pages a s))) = stdout_of (trace s2).
Proof.
  intros Hid Hnot Hcollect.
  assert (Hrun : main fuel pages a s
                 = (Exit 2,
                    mkState (world s2)
                      (trace s2 ++ [LogRecord CRITICAL "We tried our best but still.." []
                                      (Some e)]))).
  { unfold main, main_body. unfold bind at 1. rewrite Hid.
    unfold bind at 1. rewrite Hnot. unfold ret at 1.
    unfold bind at 1. rewrite Hcollect. reflexivity. }
  rewrite Hrun. split; [reflexivity|].
  simpl. rewrite stdout_of_app. simpl. apply app_nil_r.
Qed.

Lemma main_reports_a_failed_collection_witness :
  main (P:=Fixtures.scripted 0) 3 2
    (mkArgs "K" "someone" (Some "2021-06-01"%string) (Some "2020-01-01"%string) None)
    (Fixtures.play [Fixtures.lookup 1 ["UC"%string]])
  = (Exit 2,
     mkState (P:=Fixtures.scripted 0)
       (world (snd (get_channel_videos (P:=Fixtures.scripted 0) 3 2 "K" (VStr "UC")
                      (DateStr "2021-06-01") (DateStr "2020-01-01") IvNone
                      (snd (get_channel_id (P:=Fixtures.scripted 0) "K" "someone"
                              (Fixtures.play [Fixtures.lookup 1 ["UC"%string]]))))))
       (trace (snd (get_channel_videos (P:=Fixtures.scripted 0) 3 2 "K" (VStr "UC")
                      (DateStr "2021-06-01") (DateStr "2020-01-01") IvNone
                      (snd (get_channel_id (P:=Fixtures.scripted 0) "K" "someone"
                              (Fixtures.play [Fixtures.lookup 1 ["UC"%string]])))))
        ++ [LogRecord CRITICAL "We tried our best but still.." []
              (Some (PyException bad_range_msg))]))
  /\ stdout_of
       (trace (snd (main (P:=Fixtures.scripted 0) 3 2
                      (mkArgs "K" "someone" (Some "2021-06-01"%string)
                         (Some "2020-01-01"%string) None)
                      (Fixtures.play [Fixtures.lookup 1 ["UC"%string]]))))
     = stdout_of
         (trace (snd (get_channel_videos (P:=Fixtures.scripted 0) 3 2 "K" (VStr "UC")
                        (DateStr "2021-06-01") (DateStr "2020-01-01") IvNone
                        (snd (get_channel_id (P:=Fixtures.scripted 0) "K" "someone"
                                (Fixtures.play [Fixtures.lookup 1 ["UC"%string]])))))).
Proof.
  apply (main_reports_a_failed_collection (Fixtures.scripted 0) 3 2
           (mkArgs "K" "someone" (Some "2021-06-01"%string) (Some "2020-01-01"%string) None)
           (Fixtures.play [Fixtures.lookup 1 ["UC"%string]])
           (snd (get_channel_id (P:=Fixtures.scripted 0) "K" "someone"
                   (Fixtures.play [Fixtures.lookup 1 ["UC"%string]])))
           (snd (get_channel_videos (P:=Fixtures.scripted 0) 3 2 "K" (VStr "UC")
                   (DateStr "2021-06-01") (DateStr "2020-01-01") IvNone
                   (snd (get_channel_id (P:=Fixtures.scripted 0) "K" "someone"
                           (Fixtures.play [Fixtures.lookup 1 ["UC"%string]])))))
           (VStr "UC") (PyException bad_range_msg));
    vm_compute; reflexivity.
Defined.

(* ================================================================= *)
(** ** Further properties: arguments that cannot be read *)

Lemma strptime_error (P : platform) (str : string) (e : exn) :
  strptime P str = Err e -> e = ValueError.
Proof.
  unfold strptime.
  destruct (is_ascii str); [|destruct (strptime_unicode P str); congruence].
  unfold strptime_ascii.
  destruct (parse_Y (list_ascii_of_string str)) as [[y r1]|]; [|congruence].
  destruct (expect "-"%char r1) as [r2|]; [|congruence].
  destruct (parse_m r2) as [[m r3]|]; [|congruence].
  destruct (expect "-"%char r3) as [r4|]; [|congruence].
  destruct (parse_d r4) as [[d [|c r5]]|]; [|congruence|congruence].
  destruct ((1 <=? y) && (d <=? days_in_month y m)); congruence.
Qed.

Lemma py_int_error (P : platform) (str : string) (e : exn) :
  py_int P str = Err e -> e = ValueError.
Proof.
  unfold py_int.
  destruct (is_ascii str); [|destruct (int_unicode P str); congruence].
  unfold int_ascii.
  match goal with |- context [match ?b with Some _ => _ | None => _ end] =>
    destruct b end; [|congruence].
  destruct (too_many_digits _ _); congruence.
Qed.

Lemma timedelta_days_overflow (n : Z) :
  999999999 < n \/ n < - 999999999 -> timedelta_days n = Err OverflowError.
Proof.
  intros Hbig. unfold timedelta_days, max_delta_days.
  destruct (_ <=? n) eqn:H1; destruct (n <=? _) eqn:H2;
    simpl; try reflexivity.
  apply Z.leb_le in H1. apply Z.leb_le in H2. lia.
Qed.

(** X3.  A date or an interval that Python cannot read stops
    [get_channel_videos] before it does anything: the call raises and
    leaves the state as it found it, so nothing is logged, the clock is
    not read and no request is sent.  The exception is [ValueError] for an
    [earliest] that [strptime] refuses; for a [latest] that it refuses when
    [earliest] is acceptable; and for a string count that [int] refuses
    when both dates are acceptable, a literal with more digits than the
    interpreter allows being such a count.  It is [OverflowError] for a
    count of days beyond what a [timedelta] holds, given as an integer or
    as a string that [int] reads. *)
Theorem unreadable_arguments_raise_at_once (P : platform) (fuel pages : nat)
    (key : string) (cid : pyval) (s : state P) :
  (forall (str : string) (latest : date_arg) (timeInterval : interval_arg) (e : exn),
     strptime P str = Err e ->
     get_channel_videos fuel pages key cid (DateStr str) latest timeInterval s
     = (Raise ValueError, s))
  /\ (forall (earliest : date_arg) (str : string) (timeInterval : interval_arg) (e : exn),
        match earliest with DateStr x => exists d, strptime P x = Ok d | _ => True end ->
        strptime P str = Err e ->
        get_channel_videos fuel pages key cid earliest (DateStr str) timeInterval s
        = (Raise ValueError, s))
  /\ (forall (earliest latest : date_arg) (str : string) (e : exn),
        match earliest with DateStr x => exists d, strptime P x = Ok d | _ => True end ->
        match latest with DateStr x => exists d, strptime P x = Ok d | _ => True end ->
        py_int P str = Err e ->
        get_channel_videos fuel pages key cid earliest latest (IvStr str) s
        = (Raise ValueError, s))
  /\ (forall (earliest latest : date_arg) (n : Z),
        match earliest with DateStr x => exists d, strptime P x = Ok d | _ => True end ->
        match latest with DateStr x => exists d, strptime P x = Ok d | _ => True end ->
        999999999 < n \/ n < - 999999999 ->
        get_channel_videos fuel pages key cid earliest latest (IvInt n) s
        = (Raise OverflowError, s))
  /\ (forall (earliest latest : date_arg) (str : string) (n : Z),
        match earliest with DateStr x => exists d, strptime P x = Ok d | _ => True end ->
        match latest with DateStr x => exists d, strptime P x = Ok d | _ => True end ->
        py_int P str = Ok n ->
        999999999 < n \/ n < - 999999999 ->
        get_channel_videos fuel pages key cid earliest latest (IvStr str) s
        = (Raise OverflowError, s))
  /\ (forall (earliest latest : date_arg) (str : string),
        match earliest with DateStr x => exists d, strptime P x = Ok d | _ => True end ->
        match latest with DateStr x => exists d, strptime P x = Ok d | _ => True end ->
        is_ascii str = true ->
        too_many_digits (int_max_str_digits P) (strip (list_ascii_of_string str)) = true ->
        get_channel_videos fuel pages key cid earliest latest (IvStr str) s
        = (Raise ValueError, s)).
Proof.
  assert (Hint : forall (earliest latest : date_arg) (str : string) (e : exn),
             match earliest with DateStr x => exists d, strptime P x = Ok d | _ => True end ->
             match latest with DateStr x => exists d, strptime P x = Ok d | _ => True end ->
             py_int P str = Err e ->
             get_channel_videos fuel pages key cid earliest latest (IvStr str) s
             = (Raise ValueError, s)).
  { intros earliest latest str e Hearliest Hlatest Herr.
    pose proof (py_int_error P str e Herr). subst e.
    unfold get_channel_videos, resolve_arguments. unfold_monad.
    destruct earliest as [|x|d]; [|destruct Hearliest as [d Hd]; rewrite Hd|];
      (destruct latest as [|y|d']; [|destruct Hlatest as [d' Hd']; rewrite Hd'|]);
      simpl; rewrite Herr; reflexivity. }
  split; [|split; [|split; [|split; [|split]]]].
  - intros str latest timeInterval e Herr.
    pose proof (strptime_error P str e Herr). subst e.
    unfold get_channel_videos, resolve_arguments. unfold_monad.
    rewrite Herr. reflexivity.
  - intros earliest str timeInterval e Hearliest Herr.
    pose proof (strptime_error P str e Herr). subst e.
    unfold get_channel_videos, resolve_arguments. unfold_monad.
    destruct earliest as [|x|d]; [|destruct Hearliest as [d Hd]; rewrite Hd|];
      simpl; rewrite Herr; reflexivity.
  - exact Hint.
  - intros earliest latest n Hearliest Hlatest Hbig.
    pose proof (timedelta_days_overflow n Hbig) as Hover.
    unfold get_channel_videos, resolve_arguments. unfold_monad.
    destruct earliest as [|x|d]; [|destruct Hearliest as [d Hd]; rewrite Hd|];
      (destruct latest as [|y|d']; [|destruct Hlatest as [d' Hd']; rewrite Hd'|]);
      simpl; rewrite Hover; reflexivity.
  - intros earliest latest str n Hearliest Hlatest Hread Hbig.
    pose proof (timedelta_days_overflow n Hbig) as Hover.
    unfold get_channel_videos, resolve_arguments. unfold_monad.
    destruct earliest as [|x|d]; [|destruct Hearliest as [d Hd]; rewrite Hd|];
      (destruct latest as [|y|d']; [|destruct Hlatest as [d' Hd']; rewrite Hd'|]);
      simpl; rewrite Hread; simpl; rewrite Hover; reflexivity.
  - intros earliest latest str Hearliest Hlatest Hascii Hlong.
    apply (Hint earliest latest str ValueError Hearliest Hlatest).
    unfold py_int, int_ascii. rewrite Hascii.
    match goal with |- context [match ?b with Some _ => _ | None => _ end] =>
      destruct b end; [|reflexivity].
    rewrite Hlong. reflexivity.
Qed.

(** The cases of X3 on inputs: a month 13, a day out of its month, a
    count that is not a number, a count too large for a [timedelta], and
    a count of 4301 digits under the default limit of 4300. *)
Example unreadable_arguments :
  strptime (Fixtures.scripted 0) "2020-13-01" = Err ValueError
  /\ strptime (Fixtures.scripted 0) "2021-02-30" = Err ValueError
  /\ py_int (Fixtures.scripted 0) "six months" = Err ValueError
  /\ fst (main (P:=Fixtures.scripted 0) 3 2
            (mkArgs "K" "someone" (Some "2020-13-01"%string) None None)
            (Fixtures.play [Fixtures.lookup 1 ["UC"%string]]))
     = Exit 2
  /\ fst (get_channel_videos (P:=Fixtures.one_page) 3 1 "K" (VStr "UC")
            DateNone DateNone (IvStr "1000000000") Fixtures.one_page_start)
     = Raise OverflowError
  /\ get_channel_videos (P:=Fixtures.one_page) 3 1 "K" (VStr "UC")
       DateNone DateNone
       (IvStr (string_of_list_ascii (repeat "1"%char 4301))) Fixtures.one_page_start
     = (Raise ValueError, Fixtures.one_page_start).
Proof. vm_compute. repeat split. Qed.

(* ================================================================= *)
(** ** Further properties: intervals that are not positive *)

Lemma sub_value (d : datetime) (td : timedelta) (r : datetime) :
  sub d td = Ok r -> r = d - td.
Proof.
  unfold sub.
  destruct ((datetime_min <=? d - td) && (d - td <=? datetime_max)); congruence.
Qed.

(** With a finite listing every fetch returns, after at least one
    request, having opened its one window. *)
Lemma fetch_finite (P : platform) (pages : nat) (key : string) (cid : pyval)
    (before after : string) (s : state P) :
  finite_listing P pages key cid ->
  exists vids t w,
    _get_channel_videos_published_in_interval pages key cid before after s
    = (Ret vids, mkState w (trace s ++ t))
    /\ windows_of t = [(before, after)]
    /\ (1 <= List.length (requests_of t))%nat.
Proof.
  intros Hfin. destruct (Hfin before after (world s)) as [rs [Hex Hlen]].
  destruct (fetch_exchange pages key cid before after s rs Hex Hlen)
    as [k [t [w [Hk [Hrun [Hreq _]]]]]].
  destruct (fetch_shape pages key cid before after s) as [Hwin _].
  rewrite Hrun in Hwin. simpl in Hwin. rewrite windows_of_app in Hwin.
  apply app_inv_head in Hwin.
  exists (flat_map page_ids (firstn k rs)), t, w.
  split; [exact Hrun|]. split; [exact Hwin|]. lia.
Qed.

(** While the lower bound stays above [earliest] and the interval does
    not move it down, the loop cannot return. *)
Lemma window_loop_never_done (P : platform) (pages : nat) (key : string)
    (cid : pyval) (E : datetime) (iv : timedelta) :
  iv <= 0 ->
  forall (fuel : nat) (u l : datetime) (acc : list pyval) (s : state P)
         (vids : list pyval),
    E < l ->
    fst (window_loop fuel pages key cid E iv u l acc s) <> Ret vids.
Proof.
  intros Hiv. induction fuel as [|fuel IH]; intros u l acc s vids HEl;
    [simpl; discriminate|].
  simpl window_loop. unfold_monad.
  assert (Hlt : (l <? E) = false) by (apply Z.ltb_ge; lia).
  assert (Hne : (l =? E) = false) by (apply Z.eqb_neq; lia).
  rewrite Hlt. simpl. rewrite Hne. simpl.
  match goal with
  | |- context [_get_channel_videos_published_in_interval ?p ?k ?c ?b ?a ?st] =>
      destruct (fetch_shape p k c b a st) as [_ [Hres|[found Hres]]];
      destruct (_get_channel_videos_published_in_interval p k c b a st) as [r s2];
      simpl in Hres; subst r; simpl
  end; [discriminate|].
  destruct (sub l iv) as [next|e] eqn:Hsub; simpl; [|discriminate].
  apply IH. apply sub_value in Hsub. lia.
Qed.

(** X4.  With an interval that is negative, or zero over a range that is
    not empty, [get_channel_videos] never returns a list: the lower bound
    it computes never comes down to [earliest], so whatever the server
    and however many turns the loop is given, the call is still looping
    or has raised. *)
Theorem non_positive_interval_never_returns (P : platform) (fuel pages : nat)
    (key : string) (cid : pyval) (earliest latest : datetime)
    (timeInterval : timedelta) (s : state P) (vids : list pyval) :
  (timeInterval < 0 /\ earliest <= latest)
  \/ (timeInterval = 0 /\ earliest < latest) ->
  fst (get_channel_videos fuel pages key cid
         (DateObj earliest) (DateObj latest) (IvDelta timeInterval) s)
  <> Ret vids.
Proof.
  intros Hiv. rewrite get_channel_videos_resolved.
  unfold collect. unfold_monad.
  assert (Hlt : (latest <? earliest) = false) by (apply Z.ltb_ge; lia).
  rewrite Hlt. simpl.
  destruct (sub latest timeInterval) as [l|e] eqn:Hsub; simpl; [|discriminate].
  apply sub_value in Hsub.
  match goal with
  | |- context [window_loop fuel pages key cid earliest timeInterval latest l [] ?st] =>
      pose proof (window_loop_never_done P pages key cid earliest timeInterval
                    ltac:(lia) fuel latest l [] st) as Hnever;
      destruct (window_loop fuel pages key cid earliest timeInterval latest l [] st)
        as [[found|e|h] s2]
  end; simpl; try discriminate.
  exfalso. apply (Hnever found); [lia|reflexivity].
Qed.

Lemma non_positive_interval_never_returns_witness :
  fst (get_channel_videos (P:=Fixtures.one_page) 40 1 "K" (VStr "UC")
         (DateObj (datetime_ymd 2020 1 1)) (DateObj (datetime_ymd 2021 6 1))
         (IvDelta 0) Fixtures.one_page_start)
  <> Ret [VStr "v"].
Proof.
  apply (non_positive_interval_never_returns Fixtures.one_page 40 1 "K" (VStr "UC")
           (datetime_ymd 2020 1 1) (datetime_ymd 2021 6 1) 0
           Fixtures.one_page_start [VStr "v"]).
  right. split; [reflexivity|vm_compute; reflexivity].
Defined.

(** The loop with a zero interval, turn after turn on the same bounds. *)
Lemma window_loop_zero_interval (P : platform) (pages : nat) (key : string)
    (cid : pyval) (E L : datetime) :
  finite_listing P pages key cid ->
  E < L -> datetime_min <= L <= datetime_max ->
  forall (fuel : nat) (acc : list pyval) (s : state P),
    fst (window_loop fuel pages key cid E 0 L L acc s) = Hang WindowLoop
    /\ windows_of (trace (snd (window_loop fuel pages key cid E 0 L L acc s)))
       = windows_of (trace s) ++ repeat (rfc3339 P L, rfc3339 P L) fuel
    /\ (List.length (requests_of (trace s)) + fuel
        <= List.length
             (requests_of (trace (snd (window_loop fuel pages key cid E 0%Z L L acc s)))))%nat.
Proof.
  intros Hfin HEL Hvalid. induction fuel as [|fuel IH]; intros acc s.
  - simpl. rewrite app_nil_r. repeat split. lia.
  - simpl window_loop. unfold_monad.
    assert (Hlt : (L <? E) = false) by (apply Z.ltb_ge; lia).
    assert (Hne : (L =? E) = false) by (apply Z.eqb_neq; lia).
    rewrite Hlt. simpl. rewrite Hne. simpl.
    match goal with
    | |- context [_get_channel_videos_published_in_interval ?p ?k ?c ?b ?a ?st] =>
        destruct (fetch_finite P p k c b a st Hfin) as [found [t [w [Hrun [Hwin Hreq]]]]];
        rewrite Hrun
    end.
    simpl.
    assert (Hsub : sub L 0 = Ok L).
    { rewrite (sub_ok L 0); [f_equal; lia|lia]. }
    rewrite Hsub. simpl.
    match goal with
    | |- context [window_loop fuel pages key cid E 0 L L ?acc' ?st] =>
        destruct (IH acc' st) as [Hh [Hws Hrq]]
    end.
    split; [exact Hh|]. split.
    + rewrite Hws. simpl trace.
      rewrite !windows_of_app, Hwin. simpl. rewrite !app_nil_r, <- !app_assoc.
      reflexivity.
    + simpl trace in Hrq. rewrite !requests_of_app, !length_app in Hrq.
      simpl in Hrq. lia.
Qed.

(** X5.  With an interval of zero days over a range that is not empty,
    and a channel whose listing is finite, the window loop never ends and
    never moves: after any number of turns it is still turning, it has
    opened the empty window from [latest] to [latest] once per turn, and
    it has sent at least one request per turn. *)
Theorem zero_interval_repeats_one_window (P : platform) (fuel pages : nat)
    (key : string) (cid : pyval) (earliest latest : datetime) (s : state P) :
  finite_listing P pages key cid ->
  earliest < latest ->
  datetime_min <= latest <= datetime_max ->
  fst (get_channel_videos fuel pages key cid
         (DateObj earliest) (DateObj latest) (IvInt 0) s)
  = Hang WindowLoop
  /\ windows_of
       (trace (snd (get_channel_videos fuel pages key cid
                      (DateObj earliest) (DateObj latest) (IvInt 0) s)))
     = windows_of (trace s) ++ repeat (rfc3339 P latest, rfc3339 P latest) fuel
  /\ (List.length (requests_of (trace s)) + fuel
      <= List.length
           (requests_of
              (trace (snd (get_channel_videos fuel pages key cid
                             (DateObj earliest) (DateObj latest) (IvInt 0%Z) s)))))%nat.
Proof.
  intros Hfin HEL Hvalid.
  change (get_channel_videos fuel pages key cid
            (DateObj earliest) (DateObj latest) (IvInt 0) s)
    with (collect fuel pages key cid earliest latest 0 s).
  unfold collect. unfold_monad.
  assert (Hlt : (latest <? earliest) = false) by (apply Z.ltb_ge; lia).
  rewrite Hlt. simpl.
  assert (Hsub : sub latest 0 = Ok latest).
  { rewrite (sub_ok latest 0); [f_equal; lia|lia]. }
  rewrite Hsub. simpl.
  match goal with
  | |- context [window_loop fuel pages key cid earliest 0 latest latest [] ?st] =>
      destruct (window_loop_zero_interval P pages key cid earliest latest
                  Hfin HEL Hvalid fuel [] st) as [Hh [Hws Hrq]];
      destruct (window_loop fuel pages key cid earliest 0 latest latest [] st)
        as [r s2]
  end.
  simpl in Hh, Hws, Hrq. subst r. simpl.
  split; [reflexivity|]. split.
  - rewrite Hws, windows_of_app. simpl. rewrite app_nil_r. reflexivity.
  - rewrite requests_of_app in Hrq. simpl in Hrq. rewrite app_nil_r in Hrq. exact Hrq.
Qed.

Lemma one_page_finite (key : string) (cid : pyval) :
  finite_listing Fixtures.one_page 1 key cid.
Proof.
  intros before after w. exists [Fixtures.page ["v"%string] None].
  split; [simpl; auto|simpl; lia].
Qed.

Lemma one_page_unchanging : unchanging Fixtures.one_page.
Proof. intros url w w'. reflexivity. Qed.

Lemma zero_interval_repeats_one_window_witness :
  fst (get_channel_videos (P:=Fixtures.one_page) 7 1 "K" (VStr "UC")
         (DateObj (datetime_ymd 2020 1 1)) (DateObj (datetime_ymd 2021 6 1))
         (IvInt 0) Fixtures.one_page_start)
  = Hang WindowLoop
  /\ windows_of
       (trace (snd (get_channel_videos (P:=Fixtures.one_page) 7 1 "K" (VStr "UC")
                      (DateObj (datetime_ymd 2020 1 1)) (DateObj (datetime_ymd 2021 6 1))
                      (IvInt 0) Fixtures.one_page_start)))
     = windows_of (trace Fixtures.one_page_start)
       ++ repeat (rfc3339 Fixtures.one_page (datetime_ymd 2021 6 1),
                  rfc3339 Fixtures.one_page (datetime_ymd 2021 6 1)) 7
  /\ (List.length (requests_of (trace Fixtures.one_page_start)) + 7
      <= List.length
           (requests_of
              (trace (snd (get_channel_videos (P:=Fixtures.one_page) 7 1 "K" (VStr "UC")
                             (DateObj (datetime_ymd 2020 1 1))
                             (DateObj (datetime_ymd 2021 6 1))
                             (IvInt 0%Z) Fixtures.one_page_start)))))%nat.
Proof.
  apply (zero_interval_repeats_one_window Fixtures.one_page 7 1 "K" (VStr "UC")
           (datetime_ymd 2020 1 1) (datetime_ymd 2021 6 1) Fixtures.one_page_start).
  - apply one_page_finite.
  - vm_compute. reflexivity.
  - split; vm_compute; discriminate.
Defined.

(* ================================================================= *)
(** ** Further properties: what the collector returns *)

(** Against a channel that does not change and whose listing is finite,
    the loop returns its accumulator followed by what each window of the
    schedule contributes, most recent window first. *)
Lemma window_loop_concat (P : platform) (key : string) (cid : pyval) (E : datetime)
    (iv : timedelta) (pages : nat) (s0 : state P) :
  unchanging P -> finite_listing P pages key cid -> 0 < iv ->
  forall (n fuel : nat) (u : datetime) (acc : list pyval) (s : state P),
    (n < fuel)%nat ->
    E <= u -> u <= datetime_max ->
    u - (Z.of_nat n + 1) * iv <= E ->
    (0 < Z.of_nat n -> E < u - Z.of_nat n * iv) ->
    datetime_min <= u - (Z.of_nat n + 1) * iv ->
    fst (window_loop fuel pages key cid E iv u (u - iv) acc s)
    = Ret (acc ++ flat_map (window_videos pages key cid s0) (schedule n E iv u)).
Proof.
  intros Hsame Hfin Hiv.
  assert (Hfetch : forall (u l : datetime) (s : state P),
             exists t w,
               _get_channel_videos_published_in_interval pages key cid
                 (rfc3339 P u) (rfc3339 P l) s
               = (Ret (window_videos pages key cid s0 (u, l)), mkState w (trace s ++ t))).
  { intros u l s.
    destruct (fetch_finite P pages key cid (rfc3339 P u) (rfc3339 P l) s Hfin)
      as [found [t [w [Hrun _]]]].
    exists t, w. rewrite Hrun. unfold window_videos. simpl fst. simpl snd.
    rewrite <- (oblivious_fetch pages key cid (rfc3339 P u) (rfc3339 P l) Hsame s s0).
    rewrite Hrun. reflexivity. }
  induction n as [|n IH];
    intros fuel u acc s Hfuel HEu Hmax Hreach Hleast Hmin;
    (destruct fuel as [|fuel]; [lia|]).
  - assert (Hlow : u - iv <= E) by lia.
    simpl schedule. simpl window_loop. unfold_monad.
    assert (Hlast : (if u - iv <? E then E else u - iv) = E).
    { destruct (u - iv <? E) eqn:Hlt; [reflexivity|]. apply Z.ltb_ge in Hlt. lia. }
    destruct (u - iv <? E); simpl in Hlast |- *; try rewrite Hlast;
      rewrite Z.eqb_refl; simpl;
      match goal with
      | |- context [_get_channel_videos_published_in_interval pages key cid _ _ ?st] =>
          destruct (Hfetch u E st) as [t [w Hrun]]; rewrite Hrun
      end; simpl; rewrite app_nil_r; reflexivity.
  - assert (Hn : Z.of_nat (S n) = Z.of_nat n + 1) by lia.
    rewrite Hn in *.
    assert (HEl : E < u - iv) by nia.
    assert (Hsub : sub (u - iv) iv = Ok (u - iv - iv)) by (apply sub_ok; nia).
    simpl window_loop. unfold_monad.
    assert (Hlt : (u - iv <? E) = false) by (apply Z.ltb_ge; lia).
    assert (Hne : (u - iv =? E) = false) by (apply Z.eqb_neq; lia).
    rewrite Hlt. simpl. rewrite Hne. simpl.
    match goal with
    | |- context [_get_channel_videos_published_in_interval pages key cid _ _ ?st] =>
        destruct (Hfetch u (u - iv) st) as [t [w Hrun]]; rewrite Hrun
    end.
    simpl. rewrite Hsub. simpl.
    rewrite IH; try lia; try nia.
    simpl schedule. simpl flat_map. rewrite <- app_assoc. reflexivity.
Qed.

(** X6.  Against a channel that does not change and whose listing is
    finite, on a well-formed range, the list [get_channel_videos] returns
    is the concatenation of what each window contributes, window after
    window from the most recent to the oldest; nothing is reordered,
    dropped or removed as a duplicate. *)
Theorem output_concatenates_the_windows (P : platform) (fuel pages : nat)
    (key : string) (cid : pyval) (earliest latest : datetime)
    (timeInterval : timedelta) (s : state P) :
  unchanging P ->
  finite_listing P pages key cid ->
  earliest <= latest ->
  latest <= datetime_max ->
  0 < timeInterval ->
  datetime_min <= latest - rounds earliest latest timeInterval * timeInterval ->
  (Z.to_nat (rounds earliest latest timeInterval) <= fuel)%nat ->
  fst (get_channel_videos fuel pages key cid
         (DateObj earliest) (DateObj latest) (IvDelta timeInterval) s)
  = Ret (flat_map (window_videos pages key cid s)
           (schedule (Z.to_nat (rounds earliest latest timeInterval - 1))
              earliest timeInterval latest)).
Proof.
  intros Hsame Hfin HEL Hmax Hiv Hmin Hfuel.
  destruct (rounds_spec earliest latest timeInterval Hiv HEL) as [Hk1 [Hreach Hleast]].
  assert (Hn : Z.of_nat (Z.to_nat (rounds earliest latest timeInterval - 1)) + 1
               = rounds earliest latest timeInterval) by lia.
  rewrite get_channel_videos_resolved. unfold collect. unfold_monad.
  assert (Hlt : (latest <? earliest) = false) by (apply Z.ltb_ge; lia).
  rewrite Hlt. simpl.
  rewrite (sub_ok latest timeInterval) by nia. simpl.
  match goal with
  | |- context [window_loop fuel pages key cid earliest timeInterval latest
                  (latest - timeInterval) [] ?st] =>
      pose proof (window_loop_concat P key cid earliest timeInterval pages s
                    Hsame Hfin Hiv
                    (Z.to_nat (rounds earliest latest timeInterval - 1)) fuel latest [] st
                    ltac:(lia) HEL Hmax) as Hloop;
      destruct (window_loop fuel pages key cid earliest timeInterval latest
                  (latest - timeInterval) [] st) as [r s2]
  end.
  simpl in Hloop. rewrite Hloop; [reflexivity| | |].
  - rewrite Hn. exact Hreach.
  - intros Hpos.
    replace (Z.of_nat (Z.to_nat (rounds earliest latest timeInterval - 1)))
      with (rounds earliest latest timeInterval - 1) by lia.
    apply Hleast. lia.
  - rewrite Hn. exact Hmin.
Qed.

Lemma output_concatenates_the_windows_witness :
  fst (get_channel_videos (P:=Fixtures.one_page) 3 1 "K" (VStr "UC")
         (DateObj (datetime_ymd 2020 1 1)) (DateObj (datetime_ymd 2021 6 1))
         (IvDelta (180 * us_per_day)) Fixtures.one_page_start)
  = Ret (flat_map (window_videos 1 "K" (VStr "UC") Fixtures.one_page_start)
           (schedule
              (Z.to_nat (rounds (datetime_ymd 2020 1 1) (datetime_ymd 2021 6 1)
                           (180 * us_per_day) - 1))
              (datetime_ymd 2020 1 1) (180 * us_per_day) (datetime_ymd 2021 6 1))).
Proof.
  apply (output_concatenates_the_windows Fixtures.one_page 3 1 "K" (VStr "UC")
           (datetime_ymd 2020 1 1) (datetime_ymd 2021 6 1) (180 * us_per_day)
           Fixtures.one_page_start).
  - apply one_page_unchanging.
  - apply one_page_finite.
  - vm_compute. discriminate.
  - vm_compute. discriminate.
  - vm_compute. reflexivity.
  - vm_compute. discriminate.
  - vm_compute. lia.
Defined.

(* ================================================================= *)
(** ** Further properties: the requests of one window *)

Lemma page_loop_exchange_requests (P : platform) (key : string) (cid : pyval)
    (before after : string) :
  forall (rs : list reply) (fuel : nat) (token : pyval) (videoList : list pyval)
         (s : state P),
    exchange key cid before after (world s) token rs ->
    (List.length rs <= fuel)%nat ->
    exists (k : nat) (t : list event) (w : World P),
      (1 <= k <= List.length rs)%nat
      /\ page_loop fuel key cid before after token videoList s
         = (Ret (videoList ++ flat_map page_ids (firstn k rs)), mkState w (trace s ++ t))
      /\ requests_of t
         = map (search_url P key cid before after) (firstn k (exchange_tokens token rs))
      /\ (Forall page_ok rs -> k = List.length rs).
Proof.
  induction rs as [|r rest IH]; intros fuel token videoList s Hex Hfuel;
    simpl in Hex; [contradiction|].
  destruct fuel as [|fuel]; [simpl in Hfuel; lia|].
  destruct Hex as [Hr Hcont].
  rewrite page_loop_S.
  destruct (page_turn_run key cid before after token videoList s)
    as [t [Hrun [Hreq _]]].
  rewrite Hrun, Hr.
  destruct (page_next r) as [token'|] eqn:Hnext.
  - pose proof (page_next_continuation r token' Hnext) as Hc.
    rewrite Hc in Hcont.
    destruct (IH fuel token' (videoList ++ page_ids r)
                (mkState (snd (http_get P (search_url P key cid before after token) (world s)))
                         (trace s ++ t)) Hcont)
      as [k [t' [w [Hk [Hloop [Hreqs Hall]]]]]];
      [simpl in Hfuel; lia|].
    exists (S k), (t ++ t'), w. rewrite Hloop. simpl.
    repeat split; try lia.
    + rewrite <- !app_assoc. reflexivity.
    + rewrite requests_of_app, Hreq, Hreqs. unfold exchange_tokens. simpl.
      rewrite Hc. reflexivity.
    + intros Hok. f_equal. apply Hall. exact (Forall_inv_tail Hok).
  - exists 1%nat, t, (snd (http_get P (search_url P key cid before after token) (world s))).
    simpl. rewrite app_nil_r.
    repeat split; try lia.
    + exact Hreq.
    + intros Hok. pose proof (Forall_inv Hok) as Hr1.
      rewrite <- (page_ok_next r Hr1), Hnext in Hcont. rewrite Hcont. reflexivity.
Qed.

(** X7.  The requests of one window, along any exchange the server
    closes: the first carries an empty page token, each following one
    carries the continuation token of the reply before it, and all carry
    the same key, channel and bounds.  When every reply is read to its
    end, there is exactly one request per reply. *)
Theorem requests_follow_the_tokens (P : platform) (pages : nat) (key : string)
    (cid : pyval) (before after : string) (s : state P) (rs : list reply) :
  exchange key cid before after (world s) (VStr EmptyString) rs ->
  (List.length rs <= pages)%nat ->
  exists (k : nat) (s' : state P),
    (1 <= k <= List.length rs)%nat
    /\ _get_channel_videos_published_in_interval pages key cid before after s
       = (Ret (flat_map page_ids (firstn k rs)), s')
    /\ requests_of (trace s')
       = requests_of (trace s)
         ++ map (search_url P key cid before after)
              (firstn k (exchange_tokens (VStr EmptyString) rs))
    /\ (Forall page_ok rs -> k = List.length rs).
Proof.
  intros Hex Hlen. rewrite fetch_unfold.
  destruct (page_loop_exchange_requests P key cid before after rs pages
              (VStr EmptyString) []
              (mkState (world s)
                 (trace s ++ [LogRecord INFO window_msg [VStr before; VStr after] None]))
              Hex Hlen)
    as [k [t [w [Hk [Hloop [Hreq Hall]]]]]].
  rewrite Hloop. simpl.
  eexists k, _. split; [exact Hk|]. split; [reflexivity|]. split; [|exact Hall].
  simpl. rewrite !requests_of_app, Hreq. simpl. rewrite !app_nil_r. reflexivity.
Qed.

Lemma requests_follow_the_tokens_witness :
  exists (k : nat) (s' : state (Fixtures.scripted 0)),
    (1 <= k <= 2)%nat
    /\ _get_channel_videos_published_in_interval 2 "K" (VStr "UC") "b" "a"
         (Fixtures.play [Fixtures.page ["v1"%string] (Some "more"%string);
                         Fixtures.page ["v2"%string] None])
       = (Ret (flat_map page_ids
                 (firstn k [Fixtures.page ["v1"%string] (Some "more"%string);
                            Fixtures.page ["v2"%string] None])), s')
    /\ requests_of (trace s')
       = requests_of (trace (Fixtures.play [Fixtures.page ["v1"%string] (Some "more"%string);
                                            Fixtures.page ["v2"%string] None]))
         ++ map (search_url (Fixtures.scripted 0) "K" (VStr "UC") "b" "a")
              (firstn k (exchange_tokens (VStr EmptyString)
                           [Fixtures.page ["v1"%string] (Some "more"%string);
                            Fixtures.page ["v2"%string] None]))
    /\ (Forall page_ok [Fixtures.page ["v1"%string] (Some "more"%string);
                        Fixtures.page ["v2"%string] None] ->
        k = 2%nat).
Proof.
  apply (requests_follow_the_tokens (Fixtures.scripted 0) 2 "K" (VStr "UC") "b" "a"
           (Fixtures.play [Fixtures.page ["v1"%string] (Some "more"%string);
                           Fixtures.page ["v2"%string] None])
           [Fixtures.page ["v1"%string] (Some "more"%string);
            Fixtures.page ["v2"%string] None]).
  - simpl. repeat split.
  - simpl. lia.
Defined.

Lemma append_ids_app (goods others kept videoList : list pyval) :
  append_ids goods [] = (kept, None) ->
  append_ids (goods ++ others) videoList = append_ids others (videoList ++ kept).
Proof.
  revert kept videoList. induction goods as [|g goods IH]; intros kept videoList Hgood.
  - simpl in Hgood. injection Hgood as Hk. subst kept. simpl.
    rewrite app_nil_r. reflexivity.
  - simpl in Hgood |- *.
    destruct (pure_bind (dict_get g "id") (fun i => dict_get i "videoId")) as [v|e];
      [|discriminate].
    rewrite (append_ids_acc goods [v]) in Hgood.
    destruct (append_ids goods []) as [kept' [e|]] eqn:Hrest; simpl in Hgood;
      [discriminate|].
    injection Hgood as Hk. subst kept.
    rewrite (IH kept' (videoList ++ [v]) eq_refl). rewrite <- app_assoc. reflexivity.
Qed.

(** X8.  One malformed result cuts a window short.  When a page lists
    well-formed results followed by one whose [id] or [videoId] cannot be
    read, the loop keeps the identifiers read before it, loses the results
    listed after it, and stops, whether or not the reply carries a
    continuation token: the call returns what it had, after logging the
    exception once at ERROR level.  A result whose [id] object has no
    [videoId] key is not malformed: it contributes [None]. *)
Theorem malformed_result_cuts_the_window (P : platform) (pages : nat) (key : string)
    (cid : pyval) (before after : string) (s : state P)
    (j bad : pyval) (goods others kept : list pyval) (e : exn) (w : World P) :
  http_get P (search_url P key cid before after (VStr EmptyString)) (world s)
  = (Body j, w) ->
  getitem j "items" = Ok (VList (goods ++ bad :: others)) ->
  append_ids goods [] = (kept, None) ->
  pure_bind (dict_get bad "id") (fun i => dict_get i "videoId") = Err e ->
  (exists t,
     _get_channel_videos_published_in_interval (S pages) key cid before after s
     = (Ret kept, mkState w (trace s ++ t))
     /\ requests_of t = [search_url P key cid before after (VStr EmptyString)]
     /\ anomalies_of t = [(ERROR, e)])
  /\ (forall (kvs : list (string * pyval)) (videoList : list pyval),
        assoc "videoId" kvs = None ->
        append_ids [VDict [("id"%string, VDict kvs)]] videoList
        = (videoList ++ [VNone], None)).
Proof.
  intros Hget Hitems Hgood Hbad. split.
  - assert (Hout : page_outcome (Body j) = (kept, None, Some e)).
    { unfold page_outcome. rewrite Hitems. simpl py_iter. cbv iota.
      rewrite (append_ids_app goods (bad :: others) kept [] Hgood).
      simpl. rewrite Hbad. reflexivity. }
    rewrite fetch_unfold, page_loop_S.
    destruct (page_turn_run key cid before after (VStr EmptyString) []
                (mkState (world s)
                   (trace s ++ [LogRecord INFO window_msg [VStr before; VStr after] None])))
      as [t [Hrun [Hreq [_ Hano]]]].
    assert (Hids : page_ids (Body j) = kept) by (unfold page_ids; rewrite Hout; reflexivity).
    assert (Hnext : page_next (Body j) = None) by (unfold page_next; rewrite Hout; reflexivity).
    assert (Herr : page_error (Body j) = Some e) by (unfold page_error; rewrite Hout; reflexivity).
    cbn [world] in Hrun, Hano. rewrite Hget in Hrun, Hano.
    cbn [fst snd] in Hrun, Hano. rewrite Hids, Hnext in Hrun. rewrite Herr in Hano.
    rewrite Hrun. simpl.
    eexists. split; [rewrite <- !app_assoc; reflexivity|].
    split.
    + simpl. rewrite requests_of_app, Hreq. reflexivity.
    + simpl. rewrite anomalies_of_app, Hano. reflexivity.
  - intros kvs videoList Hnone. simpl. rewrite Hnone. reflexivity.
Qed.

Lemma malformed_result_cuts_the_window_witness :
  (exists t,
     _get_channel_videos_published_in_interval (P:=Fixtures.scripted 0) (S 3)
       "K" (VStr "UC") "b" "a"
       (Fixtures.play
          [Body (VDict [("items"%string,
                         VList ([Fixtures.item "v1"; Fixtures.item "v2"]
                                ++ VNone :: [Fixtures.item "v3"]));
                        ("nextPageToken"%string, VStr "more")])])
     = (Ret [VStr "v1"; VStr "v2"],
        mkState (P:=Fixtures.scripted 0) []
          (trace (Fixtures.play
                    [Body (VDict [("items"%string,
                                   VList ([Fixtures.item "v1"; Fixtures.item "v2"]
                                          ++ VNone :: [Fixtures.item "v3"]));
                                  ("nextPageToken"%string, VStr "more")])])
           ++ t))
     /\ requests_of t
        = [search_url (Fixtures.scripted 0) "K" (VStr "UC") "b" "a" (VStr EmptyString)]
     /\ anomalies_of t = [(ERROR, AttributeError)])
  /\ (forall (kvs : list (string * pyval)) (videoList : list pyval),
        assoc "videoId" kvs = None ->
        append_ids [VDict [("id"%string, VDict kvs)]] videoList
        = (videoList ++ [VNone], None)).
Proof.
  apply (malformed_result_cuts_the_window (Fixtures.scripted 0) 3 "K" (VStr "UC") "b" "a"
           (Fixtures.play
              [Body (VDict [("items"%string,
                             VList ([Fixtures.item "v1"; Fixtures.item "v2"]
                                    ++ VNone :: [Fixtures.item "v3"]));
                            ("nextPageToken"%string, VStr "more")])])
           (VDict [("items"%string,
                    VList ([Fixtures.item "v1"; Fixtures.item "v2"]
                           ++ VNone :: [Fixtures.item "v3"]));
                   ("nextPageToken"%string, VStr "more")])
           VNone [Fixtures.item "v1"; Fixtures.item "v2"] [Fixtures.item "v3"]
           [VStr "v1"; VStr "v2"] AttributeError []);
    reflexivity.
Defined.

(* ================================================================= *)
(** ** Further properties: a network that is down *)

Lemma fetch_dead (P : platform) (pages : nat) (key : string) (cid : pyval)
    (before after : string) (s : state P) :
  searches_fail P key cid ->
  exists t w,
    _get_channel_videos_published_in_interval (S pages) key cid before after s
    = (Ret [], mkState w (trace s ++ t))
    /\ requests_of t = [search_url P key cid before after (VStr EmptyString)]
    /\ anomalies_of t = [(ERROR, ConnectionError)].
Proof.
  intros Hdead. rewrite fetch_unfold, page_loop_S.
  destruct (page_turn_run key cid before after (VStr EmptyString) []
              (mkState (world s)
                 (trace s ++ [LogRecord INFO window_msg [VStr before; VStr after] None])))
    as [t [Hrun [Hreq [_ Hano]]]].
  cbn [world] in Hrun, Hano.
  rewrite (Hdead before after (VStr EmptyString) (world s)) in Hrun, Hano.
  change (page_ids ConnectionFailed) with (@nil pyval) in Hrun.
  change (page_next ConnectionFailed) with (@None pyval) in Hrun.
  change (page_error ConnectionFailed) with (Some ConnectionError) in Hano.
  rewrite Hrun. simpl.
  eexists _, _. split; [rewrite <- !app_assoc; reflexivity|].
  split.
  - simpl. rewrite requests_of_app, Hreq. reflexivity.
  - simpl. rewrite anomalies_of_app, Hano. reflexivity.
Qed.

Lemma window_loop_dead (P : platform) (key : string) (cid : pyval) (E : datetime)
    (iv : timedelta) (pages : nat) :
  searches_fail P key cid -> 0 < iv ->
  forall (n fuel : nat) (u : datetime) (acc : list pyval) (s : state P),
    (n < fuel)%nat ->
    E <= u -> u <= datetime_max ->
    u - (Z.of_nat n + 1) * iv <= E ->
    (0 < Z.of_nat n -> E < u - Z.of_nat n * iv) ->
    datetime_min <= u - (Z.of_nat n + 1) * iv ->
    fst (window_loop fuel (S pages) key cid E iv u (u - iv) acc s) = Ret acc
    /\ List.length
         (requests_of (trace (snd (window_loop fuel (S pages) key cid E iv u (u - iv) acc s))))
       = (List.length (requests_of (trace s)) + S n)%nat
    /\ anomalies_of (trace (snd (window_loop fuel (S pages) key cid E iv u (u - iv) acc s)))
       = anomalies_of (trace s) ++ repeat (ERROR, ConnectionError) (S n).
Proof.
  intros Hdead Hiv. induction n as [|n IH];
    intros fuel u acc s Hfuel HEu Hmax Hreach Hleast Hmin;
    (destruct fuel as [|fuel]; [lia|]).
  - assert (Hlow : u - iv <= E) by lia.
    simpl window_loop. unfold_monad.
    assert (Hlast : (if u - iv <? E then E else u - iv) = E).
    { destruct (u - iv <? E) eqn:Hlt; [reflexivity|]. apply Z.ltb_ge in Hlt. lia. }
    destruct (u - iv <? E); simpl in Hlast |- *; try rewrite Hlast;
      rewrite Z.eqb_refl; simpl;
      match goal with
      | |- context [_get_channel_videos_published_in_interval (S pages) key cid ?b ?a ?st] =>
          destruct (fetch_dead P pages key cid b a st Hdead) as [t [w [Hrun [Hreq Hano]]]];
          rewrite Hrun
      end; simpl; rewrite app_nil_r;
      (split; [reflexivity|]);
      rewrite !requests_of_app, !anomalies_of_app, !length_app, Hreq, Hano; simpl;
      rewrite !app_nil_r; (split; [lia|reflexivity]).
  - assert (Hn : Z.of_nat (S n) = Z.of_nat n + 1) by lia.
    rewrite Hn in *.
    assert (HEl : E < u - iv) by nia.
    assert (Hsub : sub (u - iv) iv = Ok (u - iv - iv)) by (apply sub_ok; nia).
    simpl window_loop. unfold_monad.
    assert (Hlt : (u - iv <? E) = false) by (apply Z.ltb_ge; lia).
    assert (Hne : (u - iv =? E) = false) by (apply Z.eqb_neq; lia).
    rewrite Hlt. simpl. rewrite Hne. simpl.
    match goal with
    | |- context [_get_channel_videos_published_in_interval (S pages) key cid ?b ?a ?st] =>
        destruct (fetch_dead P pages key cid b a st Hdead) as [t [w [Hrun [Hreq Hano]]]];
        rewrite Hrun
    end.
    simpl. rewrite Hsub. simpl. rewrite app_nil_r.
    match goal with
    | |- context [window_loop fuel (S pages) key cid E iv (u - iv) (u - iv - iv) acc ?st] =>
        destruct (IH fuel (u - iv) acc st) as [Hr [Hrq Han]]; try lia; try nia
    end.
    split; [exact Hr|].
    rewrite Hrq, Han. simpl trace.
    rewrite !requests_of_app, !anomalies_of_app, !length_app, Hreq, Hano. simpl.
    rewrite !app_nil_r, <- !app_assoc. split; [lia|reflexivity].
Qed.

(** X9.  When every search request fails, the collector still works
    through the whole range: on a well-formed range it returns the empty
    list, having sent exactly one request per window and logged exactly
    one ERROR record, carrying the connection error, per window.  Nothing
    is retried and no exception reaches the caller. *)
Theorem dead_network_yields_an_empty_list (P : platform) (fuel pages : nat)
    (key : string) (cid : pyval) (earliest latest : datetime)
    (timeInterval : timedelta) (s : state P) :
  searches_fail P key cid ->
  earliest <= latest ->
  latest <= datetime_max ->
  0 < timeInterval ->
  datetime_min <= latest - rounds earliest latest timeInterval * timeInterval ->
  (Z.to_nat (rounds earliest latest timeInterval) <= fuel)%nat ->
  fst (get_channel_videos fuel (S pages) key cid
         (DateObj earliest) (DateObj latest) (IvDelta timeInterval) s)
  = Ret []
  /\ Z.of_nat
       (List.length
          (requests_of
             (trace (snd (get_channel_videos fuel (S pages) key cid
                            (DateObj earliest) (DateObj latest)
                            (IvDelta timeInterval) s)))))
     = Z.of_nat (List.length (requests_of (trace s)))
       + rounds earliest latest timeInterval
  /\ anomalies_of
       (trace (snd (get_channel_videos fuel (S pages) key cid
                      (DateObj earliest) (DateObj latest) (IvDelta timeInterval) s)))
     = anomalies_of (trace s)
       ++ repeat (ERROR, ConnectionError)
            (Z.to_nat (rounds earliest latest timeInterval)).
Proof.
  intros Hdead HEL Hmax Hiv Hmin Hfuel.
  destruct (rounds_spec earliest latest timeInterval Hiv HEL) as [Hk1 [Hreach Hleast]].
  assert (Hn : Z.of_nat (Z.to_nat (rounds earliest latest timeInterval - 1)) + 1
               = rounds earliest latest timeInterval) by lia.
  assert (HS : S (Z.to_nat (rounds earliest latest timeInterval - 1))
               = Z.to_nat (rounds earliest latest timeInterval)) by lia.
  rewrite get_channel_videos_resolved. unfold collect. unfold_monad.
  assert (Hlt : (latest <? earliest) = false) by (apply Z.ltb_ge; lia).
  rewrite Hlt. simpl.
  rewrite (sub_ok latest timeInterval) by nia. simpl.
  match goal with
  | |- context [window_loop fuel (S pages) key cid earliest timeInterval latest
                  (latest - timeInterval) [] ?st] =>
      destruct (window_loop_dead P key cid earliest timeInterval pages Hdead Hiv
                  (Z.to_nat (rounds earliest latest timeInterval - 1)) fuel latest [] st)
        as [Hr [Hrq Han]];
      [lia|exact HEL|exact Hmax|rewrite Hn; exact Hreach| |rewrite Hn; exact Hmin|];
      [intros Hpos;
       replace (Z.of_nat (Z.to_nat (rounds earliest latest timeInterval - 1)))
         with (rounds earliest latest timeInterval - 1) by lia;
       apply Hleast; lia|];
      destruct (window_loop fuel (S pages) key cid earliest timeInterval latest
                  (latest - timeInterval) [] st) as [r s2]
  end.
  simpl in Hr, Hrq, Han. subst r. simpl.
  split; [reflexivity|].
  rewrite ?requests_of_app, ?anomalies_of_app, ?length_app. rewrite Hrq, Han.
  rewrite ?requests_of_app, ?anomalies_of_app, ?length_app. simpl.
  rewrite ?app_nil_r. split; [lia|rewrite <- HS; reflexivity].
Qed.

Lemma dead_network_yields_an_empty_list_witness :
  fst (get_channel_videos (P:=Fixtures.constant ConnectionFailed) 3 (S 0) "K" (VStr "UC")
         (DateObj (datetime_ymd 2020 1 1)) (DateObj (datetime_ymd 2021 6 1))
         (IvDelta (180 * us_per_day))
         (mkState (P:=Fixtures.constant ConnectionFailed) tt []))
  = Ret []
  /\ Z.of_nat
       (List.length
          (requests_of
             (trace (snd (get_channel_videos (P:=Fixtures.constant ConnectionFailed)
                            3 (S 0) "K" (VStr "UC")
                            (DateObj (datetime_ymd 2020 1 1))
                            (DateObj (datetime_ymd 2021 6 1))
                            (IvDelta (180 * us_per_day))
                            (mkState (P:=Fixtures.constant ConnectionFailed) tt []))))))
     = Z.of_nat (List.length
                   (requests_of (trace (mkState (P:=Fixtures.constant ConnectionFailed) tt []))))
       + rounds (datetime_ymd 2020 1 1) (datetime_ymd 2021 6 1) (180 * us_per_day)
  /\ anomalies_of
       (trace (snd (get_channel_videos (P:=Fixtures.constant ConnectionFailed)
                      3 (S 0) "K" (VStr "UC")
                      (DateObj (datetime_ymd 2020 1 1)) (DateObj (datetime_ymd 2021 6 1))
                      (IvDelta (180 * us_per_day))
                      (mkState (P:=Fixtures.constant ConnectionFailed) tt []))))
     = anomalies_of (trace (mkState (P:=Fixtures.constant ConnectionFailed) tt []))
       ++ repeat (ERROR, ConnectionError)
            (Z.to_nat (rounds (datetime_ymd 2020 1 1) (datetime_ymd 2021 6 1)
                         (180 * us_per_day))).
Proof.
  apply (dead_network_yields_an_empty_list (Fixtures.constant ConnectionFailed) 3 0
           "K" (VStr "UC") (datetime_ymd 2020 1 1) (datetime_ymd 2021 6 1)
           (180 * us_per_day) (mkState (P:=Fixtures.constant ConnectionFailed) tt [])).
  - intros before after token w. reflexivity.
  - vm_compute. discriminate.
  - vm_compute. discriminate.
  - vm_compute. reflexivity.
  - vm_compute. discriminate.
  - vm_compute. lia.
Defined.

(* ================================================================= *)
(** ** Further properties: invariants of the trace *)

Section Adds.

Context {P : platform}.

Variable I : event -> Prop.
Variables key name : string.

Hypothesis I_log :
  forall lvl msg args, lvl = DEBUG \/ lvl = INFO -> I (LogRecord lvl msg args None).
Hypothesis I_exc :
  forall lvl msg e, lvl = ERROR \/ lvl = CRITICAL -> I (LogRecord lvl msg [] (Some e)).
Hypothesis I_out : forall v, I (Stdout v).
Hypothesis I_get : forall url, api_request P key name url -> I (HttpGet url).

Lemma adds_ret {A} (a : A) : adds (P:=P) I (ret a).
Proof. intros s. exists []. simpl. rewrite app_nil_r. auto. Qed.

Lemma adds_raise {A} (e : exn) : adds (P:=P) I (@raise P A e).
Proof. intros s. exists []. simpl. rewrite app_nil_r. auto. Qed.

Lemma adds_hang {A} (l : loop_id) : adds (P:=P) I (@hang P A l).
Proof. intros s. exists []. simpl. rewrite app_nil_r. auto. Qed.

Lemma adds_lift {A} (r : pure A) : adds (P:=P) I (lift r).
Proof. intros s. exists []. unfold lift. destruct r; simpl; rewrite app_nil_r; auto. Qed.

Lemma adds_now : adds (P:=P) I now.
Proof.
  intros s. exists []. unfold now. destruct (clock P (world s)). simpl.
  rewrite app_nil_r. auto.
Qed.

Lemma adds_emit (e : event) : I e -> adds (P:=P) I (emit e).
Proof. intros He s. exists [e]. simpl. auto. Qed.

Lemma adds_log (lvl : level) (msg : string) (args : list pyval) :
  lvl = DEBUG \/ lvl = INFO -> adds (P:=P) I (log lvl msg args).
Proof. intros Hl. apply adds_emit. apply I_log. exact Hl. Qed.

Lemma adds_log_exc (lvl : level) (msg : string) (e : exn) :
  lvl = ERROR \/ lvl = CRITICAL -> adds (P:=P) I (log_exc lvl msg e).
Proof. intros Hl. apply adds_emit. apply I_exc. exact Hl. Qed.

Lemma adds_requests_get (url : string) :
  api_request P key name url -> adds (P:=P) I (requests_get url).
Proof.
  intros Hurl s. exists [HttpGet url]. unfold requests_get.
  destruct (http_get P url (world s)) as [[| |j] w]; simpl; auto.
Qed.

Lemma adds_json_loads (r : reply) : adds (P:=P) I (json_loads r).
Proof. destruct r; simpl; [apply adds_raise|apply adds_raise|apply adds_ret]. Qed.

Lemma adds_bind {A B} (m : M P A) (k : A -> M P B) :
  adds I m -> (forall a, adds I (k a)) -> adds I (bind m k).
Proof.
  intros Hm Hk s. unfold bind. destruct (Hm s) as [t [Ht HI]].
  destruct (m s) as [[a|e|l] s1]; simpl in Ht |- *; try solve [exists t; auto].
  destruct (Hk a s1) as [t' [Ht' HI']].
  exists (t ++ t'). rewrite Ht', Ht, app_assoc. split; [reflexivity|].
  apply Forall_app. auto.
Qed.

Lemma adds_try {A} (m : M P A) (h : exn -> M P A) :
  adds I m -> (forall e, adds I (h e)) -> adds I (try_except m h).
Proof.
  intros Hm Hh s. unfold try_except. destruct (Hm s) as [t [Ht HI]].
  destruct (m s) as [[a|e|l] s1]; simpl in Ht |- *; try solve [exists t; auto].
  destruct (Hh e s1) as [t' [Ht' HI']].
  exists (t ++ t'). rewrite Ht', Ht, app_assoc. split; [reflexivity|].
  apply Forall_app. auto.
Qed.

(** Takes a computation apart along the monad's operations. *)
Ltac adds_steps :=
  repeat first
    [ apply adds_ret
    | apply adds_raise
    | apply adds_hang
    | apply adds_lift
    | apply adds_now
    | apply adds_json_loads
    | apply adds_log; solve [auto]
    | apply adds_log_exc; solve [auto]
    | assumption
    | apply adds_bind; [|intros]
    | apply adds_try; [|intros]
    | match goal with
      | |- adds _ (if ?b then _ else _) => destruct b
      | |- adds _ (match ?x with _ => _ end) => destruct x
      end ].

Lemma adds_get_channel_id : adds (P:=P) I (get_channel_id key name).
Proof.
  unfold get_channel_id. cbv zeta.
  apply adds_bind; [adds_steps|intros _].
  apply adds_try; [|intros e; adds_steps].
  apply adds_bind; [adds_steps|intros _].
  apply adds_bind; [adds_steps|intros _].
  apply adds_bind;
    [apply adds_requests_get; left; reflexivity|intros response].
  adds_steps.
Qed.

Lemma adds_page_turn (cid : pyval) (before after : string) (token : pyval)
    (videoList : list pyval) :
  adds (P:=P) I (page_turn key cid before after token videoList).
Proof.
  unfold page_turn. cbv zeta.
  apply adds_try; [|intros e; adds_steps].
  apply adds_bind; [adds_steps|intros _].
  apply adds_bind; [adds_steps|intros _].
  apply adds_bind;
    [apply adds_requests_get; right; exists cid, before, after, token; reflexivity
    |intros response].
  adds_steps.
Qed.

Lemma adds_page_loop (cid : pyval) (before after : string) :
  forall (fuel : nat) (token : pyval) (videoList : list pyval),
    adds (P:=P) I (page_loop fuel key cid before after token videoList).
Proof.
  induction fuel as [|fuel IH]; intros token videoList; simpl page_loop.
  - apply adds_hang.
  - apply adds_bind; [apply adds_page_turn|intros [vl [t|]]]; [apply IH|apply adds_ret].
Qed.

Lemma adds_fetch (pages : nat) (cid : pyval) (before after : string) :
  adds (P:=P) I (_get_channel_videos_published_in_interval pages key cid before after).
Proof.
  unfold _get_channel_videos_published_in_interval.
  apply adds_bind; [adds_steps|intros _].
  apply adds_bind; [apply adds_page_loop|intros vl].
  adds_steps.
Qed.

Lemma adds_window_loop (pages : nat) (cid : pyval) (E : datetime) (iv : timedelta) :
  forall (fuel : nat) (u l : datetime) (acc : list pyval),
    adds (P:=P) I (window_loop fuel pages key cid E iv u l acc).
Proof.
  induction fuel as [|fuel IH]; intros u l acc; simpl window_loop.
  - apply adds_hang.
  - apply adds_bind; [adds_steps|intros l'].
    apply adds_bind; [adds_steps|intros done].
    apply adds_bind; [adds_steps|intros _].
    apply adds_bind; [apply adds_fetch|intros vids].
    adds_steps. apply IH.
Qed.

Lemma adds_get_channel_videos (fuel pages : nat) (cid : pyval)
    (earliest latest : date_arg) (timeInterval : interval_arg) :
  adds (P:=P) I (get_channel_videos fuel pages key cid earliest latest timeInterval).
Proof.
  unfold get_channel_videos.
  apply adds_bind.
  - unfold resolve_arguments. adds_steps.
  - intros [[E L] iv]. unfold collect.
    apply adds_bind; [adds_steps|intros _].
    apply adds_bind; [adds_steps|intros _].
    apply adds_bind; [adds_steps|intros l].
    apply adds_bind; [apply adds_window_loop|intros vids].
    adds_steps.
Qed.

Lemma adds_print_all (videos : list pyval) : adds (P:=P) I (print_all videos).
Proof.
  induction videos as [|v videos IH]; simpl print_all.
  - apply adds_ret.
  - apply adds_bind; [apply adds_emit; apply I_out|intros _; exact IH].
Qed.

Lemma adds_main (fuel pages : nat) (a : args) (s : state P) :
  apiKey a = key -> channel a = name ->
  exists t, trace (snd (main fuel pages a s)) = trace s ++ t /\ Forall I t.
Proof.
  intros Hkey Hname.
  assert (Hbody : adds (P:=P) I (main_body fuel pages a)).
  { unfold main_body. rewrite Hkey, Hname.
    apply adds_bind; [apply adds_get_channel_id|intros cid].
    apply adds_bind; [adds_steps|intros _].
    apply adds_bind; [apply adds_get_channel_videos|intros videos].
    destruct (Z.of_nat (List.length videos) <=? 0); [adds_steps|].
    apply adds_bind; [apply adds_print_all|intros _]. adds_steps. }
  unfold main. destruct (Hbody s) as [t [Ht HI]].
  destruct (main_body fuel pages a s) as [[[code|]|e|l] s1]; simpl in Ht |- *;
    try solve [exists t; auto].
  exists (t ++ [LogRecord CRITICAL "We tried our best but still.." [] (Some e)]).
  rewrite Ht, app_assoc. split; [reflexivity|].
  apply Forall_app. split; [exact HI|]. constructor; [|constructor].
  apply I_exc. auto.
Qed.

End Adds.

Lemma requests_of_api (P : platform) (key name : string) (t : list event) :
  Forall (request_to_api P key name) t ->
  Forall (api_request P key name) (requests_of t).
Proof.
  induction t as [|e t IH]; intros Hall; [constructor|].
  pose proof (Forall_inv Hall) as He. pose proof (Forall_inv_tail Hall) as Ht.
  destruct e; simpl; auto.
Qed.

Lemma append_assoc (a b c : string) : (a ^^ b) ^^ c = a ^^ (b ^^ c).
Proof. induction a as [|x a IH]; simpl; [|rewrite IH]; reflexivity. Qed.

(** X10.  Whatever the server answers and however the run ends, every
    request [main] sends is either the lookup of the channel name it was
    given or a search, and each is made with the API key it was given:
    the key goes to the two endpoints of the video API and nowhere
    else. *)
Theorem requests_go_to_the_api_only (P : platform) (fuel pages : nat) (a : args)
    (s : state P) :
  exists t,
    trace (snd (main fuel pages a s)) = trace s ++ t
    /\ Forall (api_request P (apiKey a) (channel a)) (requests_of t)
    /\ Forall (fun url => exists rest, url = youtubeApiUrl ^^ rest) (requests_of t).
Proof.
  destruct (adds_main (P:=P) (request_to_api P (apiKey a) (channel a))
              (apiKey a) (channel a)) with (fuel:=fuel) (pages:=pages) (a:=a) (s:=s)
    as [t [Ht HI]]; try reflexivity; simpl; auto.
  exists t. split; [exact Ht|].
  pose proof (requests_of_api P (apiKey a) (channel a) t HI) as Hreq.
  split; [exact Hreq|].
  eapply Forall_impl; [|exact Hreq].
  intros url [Hl|[cid [before [after [token Hs]]]]]; subst url.
  - unfold lookup_url, youtubeChannelsApiUrl. eexists.
    rewrite append_assoc. reflexivity.
  - unfold search_url, youtubeSearchApiUrl. eexists.
    rewrite append_assoc. reflexivity.
Qed.

Lemma shown_app (configured : level) (t u : list event) :
  shown configured (t ++ u) = shown configured t ++ shown configured u.
Proof. apply filter_app. Qed.

Lemma shown_well_levelled (t : list event) :
  Forall well_levelled t ->
  shown WARNING t = shown ERROR t
  /\ List.length (shown ERROR t) = List.length (anomalies_of t)
  /\ Forall (fun e => exists lvl msg args x, e = LogRecord lvl msg args (Some x))
       (shown ERROR t).
Proof.
  induction t as [|e t IH]; intros Hall; [simpl; auto|].
  pose proof (Forall_inv Hall) as He.
  destruct (IH (Forall_inv_tail Hall)) as [H1 [H2 H3]].
  destruct e as [url|lvl msg args [x|]|v]; simpl in He |- *; auto.
  - destruct He; subst lvl; simpl; rewrite H1, H2;
      (split; [reflexivity|]; split; [reflexivity|]);
      constructor; eauto.
  - destruct He; subst lvl; simpl; auto.
Qed.

(** X11.  In every run of [main], the records logged at ERROR or
    CRITICAL level are exactly those that carry an exception, every other
    record is at DEBUG or INFO level, and nothing is logged at WARNING
    level.  So without [--verbose] and [--debug] the logger passes on the
    same records whether [--quiet] is given or not, one per exception
    caught; a run that catches no exception logs nothing at the default
    level. *)
Theorem quiet_changes_nothing (P : platform) (fuel pages : nat) (a : args)
    (s : state P) :
  exists t,
    trace (snd (main fuel pages a s)) = trace s ++ t
    /\ Forall well_levelled t
    /\ (forall f : verbosity,
          verbose f = false -> debug f = false ->
          shown (read_args_level f) t = shown ERROR t)
    /\ List.length (shown ERROR t) = List.length (anomalies_of t)
    /\ Forall (fun e => exists lvl msg args x, e = LogRecord lvl msg args (Some x))
         (shown ERROR t)
    /\ (anomalies_of t = [] -> shown WARNING t = []).
Proof.
  destruct (adds_main (P:=P) well_levelled (apiKey a) (channel a))
    with (fuel:=fuel) (pages:=pages) (a:=a) (s:=s)
    as [t [Ht HI]]; try reflexivity; simpl; auto.
  destruct (shown_well_levelled t HI) as [H1 [H2 H3]].
  exists t. split; [exact Ht|]. split; [exact HI|].
  split; [|split; [exact H2|split; [exact H3|]]].
  - intros f Hv Hd. unfold read_args_level. rewrite Hv, Hd.
    destruct (quiet f); [reflexivity|exact H1].
  - intros Hnone. rewrite H1. rewrite Hnone in H2.
    destruct (shown ERROR t); [reflexivity|discriminate].
Qed.
